(** * Text-Analysis: the Streamlit demo over five transformer pipelines

    A shallow embedding of [untitled10.py].  The script is one Streamlit
    page: it is executed from top to bottom on every user interaction, the
    only value that survives from one run to the next being the entry that
    [@st.cache_resource] keeps for [load_pipelines].

    The development has three layers:
    - [Py]: the Python values the script handles (strings, floats, lists,
      dicts), subscripting, iteration and the [:.4f] format specification;
    - the Streamlit commands the script uses, as operations of a small
      state-and-exception monad over the process state;
    - the script itself, section by section, and the properties of the
      registry loader and of the five task panels. *)

From Stdlib Require Import ZArith String Ascii Floats DecimalString Lia.
From stdpp Require Import base option list strings gmap.

Set Warnings "-inexact-float,-register-all".
Local Open Scope string_scope.
Local Open Scope Z_scope.
Local Open Scope list_scope.

(* ===================================================================== *)
(** * Python values *)
(* ===================================================================== *)

Module Py.

(** Exceptions are instances of [Exception]: a class name and the message
    that [str(e)] gives.  Control-flow signals that derive from
    [BaseException] only (Streamlit's stop signal) are not values of this
    type; the script monad has a separate outcome for them. *)
Record exn := Exn { exn_class : string; exn_message : string }.

(** The values that flow through the script: the text of the widgets, and
    what a pipeline handle returns (lists of dicts with string keys whose
    fields are strings and floats). *)
Inductive pyval :=
| PyStr (s : string)
| PyFloat (f : float)
| PyList (l : list pyval)
| PyDict (d : list (string * pyval)).

Definition IndexError (msg : string) : exn := Exn "IndexError" msg.
Definition KeyError (msg : string) : exn := Exn "KeyError" msg.
Definition TypeError (msg : string) : exn := Exn "TypeError" msg.
Definition ValueError (msg : string) : exn := Exn "ValueError" msg.

Definition type_name (v : pyval) : string :=
  match v with
  | PyStr _ => "str"
  | PyFloat _ => "float"
  | PyList _ => "list"
  | PyDict _ => "dict"
  end.

(** Lookup in a dict: the binding of the first entry with that key. *)
Fixpoint dict_get (d : list (string * pyval)) (k : string) : option pyval :=
  match d with
  | [] => None
  | (k', v) :: d' => if String.eqb k' k then Some v else dict_get d' k
  end.

(** [v[0]]. *)
Definition getitem_0 (v : pyval) : exn + pyval :=
  match v with
  | PyList [] => inl (IndexError "list index out of range")
  | PyList (x :: _) => inr x
  | PyStr EmptyString => inl (IndexError "string index out of range")
  | PyStr (String c _) => inr (PyStr (String c EmptyString))
  | PyDict _ => inl (KeyError "0")
  | PyFloat _ => inl (TypeError "'float' object is not subscriptable")
  end.

(** [v["k"]]. *)
Definition getitem (v : pyval) (k : string) : exn + pyval :=
  match v with
  | PyDict d =>
      match dict_get d k with
      | Some x => inr x
      | None => inl (KeyError ("'" +:+ k +:+ "'"))
      end
  | PyList _ => inl (TypeError "list indices must be integers or slices, not str")
  | PyStr _ => inl (TypeError "string indices must be integers, not 'str'")
  | PyFloat _ => inl (TypeError "'float' object is not subscriptable")
  end.

(** [v == "s"] for a string literal: only a string with the same
    characters is equal to it. *)
Definition eq_str (v : pyval) (s : string) : bool :=
  match v with
  | PyStr s' => String.eqb s' s
  | _ => false
  end.

(** [for x in v]: the elements of a list, the characters of a string, the
    keys of a dict. *)
Fixpoint chars (s : string) : list pyval :=
  match s with
  | EmptyString => []
  | String c s' => PyStr (String c EmptyString) :: chars s'
  end.

Definition iter (v : pyval) : exn + list pyval :=
  match v with
  | PyList l => inr l
  | PyStr s => inr (chars s)
  | PyDict d => inr (map (fun kv => PyStr (fst kv)) d)
  | PyFloat _ => inl (TypeError "'float' object is not iterable")
  end.

(** ** The format specification [.4f]

    A finite binary64 value is [(-1)^s * m * 2^e]; [.4f] prints the decimal
    with four fractional digits that is nearest to that exact value, ties
    going to the even digit. *)

Definition round_half_even (num den : Z) : Z :=
  let q := num / den in
  let r := num mod den in
  if 2 * r <? den then q
  else if den <? 2 * r then q + 1
  else if Z.even q then q else q + 1.

(** The integer nearest to [m * 2^e * 10^4]. *)
Definition scaled_4 (m : positive) (e : Z) : Z :=
  if 0 <=? e then Z.pos m * 2 ^ e * 10000
  else round_half_even (Z.pos m * 10000) (2 ^ (- e)).

Definition decimal (n : Z) : string := NilZero.string_of_uint (N.to_uint (Z.to_N n)).

Definition digit (d : Z) : ascii := ascii_of_nat (48 + Z.to_nat d).

Definition fraction_4 (r : Z) : string :=
  String (digit (r / 1000 mod 10))
    (String (digit (r / 100 mod 10))
       (String (digit (r / 10 mod 10))
          (String (digit (r mod 10)) EmptyString))).

(** [n] ten-thousandths, printed with the point four digits from the right. *)
Definition fixed_4 (n : Z) : string :=
  decimal (n / 10000) +:+ "." +:+ fraction_4 (n mod 10000).

Definition sign_prefix (s : bool) : string := if s then "-" else "".

Definition format_float_4f (f : float) : string :=
  match Prim2SF f with
  | S754_nan => "nan"
  | S754_infinity s => sign_prefix s +:+ "inf"
  | S754_zero s => sign_prefix s +:+ "0.0000"
  | S754_finite s m e => sign_prefix s +:+ fixed_4 (scaled_4 m e)
  end.

(** [f"{v:.4f}"]: only numbers accept the presentation type [f]. *)
Definition format_4f (v : pyval) : exn + string :=
  match v with
  | PyFloat f => inr (format_float_4f f)
  | PyStr _ => inl (ValueError "Unknown format code 'f' for object of type 'str'")
  | PyList _ => inl (TypeError "unsupported format string passed to list.__format__")
  | PyDict _ => inl (TypeError "unsupported format string passed to dict.__format__")
  end.

(** [f"{v}"]: a string is inserted as it is; every other value through its
    [repr], which is taken as given. *)
Definition format_plain (repr : pyval -> string) (v : pyval) : string :=
  match v with
  | PyStr s => s
  | _ => repr v
  end.

End Py.

Import Py.

(** Sequencing of computations that may raise. *)
Definition and_then {A B : Type} (r : exn + A) (k : A -> exn + B) : exn + B :=
  match r with
  | inl e => inl e
  | inr a => k a
  end.

(* ===================================================================== *)
(** * The world outside the script *)
(* ===================================================================== *)

(** The arguments of one [pipeline(...)] call of the transformers library. *)
Record pipe_spec := PipeSpec {
  task_name : string;
  model : option string;
  aggregation_strategy : option string }.

#[global] Instance pipe_spec_eq_dec : EqDecision pipe_spec.
Proof. solve_decision. Defined.

(** The transformers library is a black box.  [ext] is whatever it depends
    on and changes (the model hub, the disk cache, the sampling state);
    [be_pipeline] is [pipeline(task, model=..., ...)], which returns a handle
    or raises; [be_call] is [handle(text, **kwargs)], which returns a value
    or raises; [be_repr] is Python's [repr] on the values that are not
    strings. *)
Record backend := Backend {
  ext : Type;
  handle : Type;
  be_pipeline : pipe_spec -> ext -> (exn + handle) * ext;
  be_call : handle -> string -> list (string * Z) -> ext -> (exn + pyval) * ext;
  be_repr : pyval -> string }.

(* ===================================================================== *)
(** * Streamlit *)
(* ===================================================================== *)

(** What a run of the script puts on the page: one element per display or
    widget command, with the arguments the script passed. *)
Inductive element :=
| PageConfig (page_title layout initial_sidebar_state : string)
| Title (body : string)
| Markdown (body : string)
| SidebarSelectbox (label : string) (options : list string) (value : string)
| SidebarMarkdown (body : string)
| SidebarInfo (body : string)
| Header (body : string)
| Subheader (body : string)
| TextArea (label value : string) (height : Z)
| Slider (label : string) (min_value max_value value : Z)
| Button (label : string)
| Success (body : string)
| ErrorBox (body : string)
| Code (body : pyval) (language : string)
| Written (body : pyval)
| Dataframe (data : pyval)
| ExceptionBox (e : exn).

(** The widgets of a task panel, as opposed to the page chrome and the
    sidebar. *)
Definition is_panel_widget (el : element) : bool :=
  match el with
  | Header _ | TextArea _ _ _ | Slider _ _ _ _ | Button _ => true
  | _ => false
  end.

(** ** What [st.markdown] sends to the page

    A [Markdown] element holds the argument the script passed.  Streamlit
    does not show that string as it is: it cleans it (dedent, then strip)
    and the page renders the result as Markdown.  The cleaning is modelled
    here; the rendering is not. *)

(** The characters that Python's [str.isspace] accepts, as the bytes of
    their UTF-8 encoding. *)
Definition whitespace : list (list ascii) :=
  map (map ascii_of_nat)
    [[9]; [10]; [11]; [12]; [13]; [28]; [29]; [30]; [31]; [32];
     [194; 133]; [194; 160]; [225; 154; 128];
     [226; 128; 128]; [226; 128; 129]; [226; 128; 130]; [226; 128; 131];
     [226; 128; 132]; [226; 128; 133]; [226; 128; 134]; [226; 128; 135];
     [226; 128; 136]; [226; 128; 137]; [226; 128; 138];
     [226; 128; 168]; [226; 128; 169]; [226; 128; 175]; [226; 129; 159];
     [227; 128; 128]]%nat.

(** [l] without its prefix [pre], if it has it. *)
Fixpoint after_prefix (pre l : list ascii) : option (list ascii) :=
  match pre, l with
  | [], _ => Some l
  | c :: pre', c' :: l' => if Ascii.eqb c c' then after_prefix pre' l' else None
  | _ :: _, [] => None
  end.

(** [l] without the first of the [codes] it starts with. *)
Fixpoint after_first (codes : list (list ascii)) (l : list ascii) : option (list ascii) :=
  match codes with
  | [] => None
  | code :: codes' =>
      match after_prefix code l with
      | Some rest => Some rest
      | None => after_first codes' l
      end
  end.

(** Drop leading [codes] for as long as there are some; [fuel] bounds the
    number of them. *)
Fixpoint drop_leading (codes : list (list ascii)) (fuel : nat) (l : list ascii)
  : list ascii :=
  match fuel with
  | O => l
  | S fuel' =>
      match after_first codes l with
      | Some rest => drop_leading codes fuel' rest
      | None => l
      end
  end.

(** [s.strip()]. *)
Definition strip (s : string) : string :=
  let l := list_ascii_of_string s in
  let l := drop_leading whitespace (length l) l in
  let r := drop_leading (map (@rev ascii) whitespace) (length l) (rev l) in
  string_of_list_ascii (rev r).

Definition is_space_or_tab (c : ascii) : bool :=
  Ascii.eqb c " " || Ascii.eqb c (ascii_of_nat 9).

(** [text.split("\n")]. *)
Fixpoint split_lines (l : list ascii) : list (list ascii) :=
  match l with
  | [] => [[]]
  | c :: l' =>
      if Ascii.eqb c (ascii_of_nat 10) then [] :: split_lines l'
      else match split_lines l' with
           | line :: lines => (c :: line) :: lines
           | [] => [[c]]
           end
  end.

(** ["\n".join(lines)]. *)
Fixpoint join_lines (lines : list (list ascii)) : list ascii :=
  match lines with
  | [] => []
  | [line] => line
  | line :: lines' => line ++ ascii_of_nat 10 :: join_lines lines'
  end.

(** The spaces and tabs a line starts with. *)
Fixpoint indent_of (line : list ascii) : list ascii :=
  match line with
  | c :: line' => if is_space_or_tab c then c :: indent_of line' else []
  | [] => []
  end.

Fixpoint common_prefix (a b : list ascii) : list ascii :=
  match a, b with
  | c :: a', c' :: b' => if Ascii.eqb c c' then c :: common_prefix a' b' else []
  | _, _ => []
  end.

(** The margin of [textwrap.dedent]: the longest run of spaces and tabs
    that all the lines with something on them start with. *)
Definition margin_of (lines : list (list ascii)) : list ascii :=
  match filter (fun line => line <> []) lines with
  | [] => []
  | line :: lines' =>
      fold_left (fun m line' => common_prefix m (indent_of line')) lines' (indent_of line)
  end.

(** [textwrap.dedent(text)]: lines of spaces and tabs alone are emptied,
    and the margin is removed from the others. *)
Definition dedent (s : string) : string :=
  let lines := split_lines (list_ascii_of_string s) in
  let lines := map (fun line => if forallb is_space_or_tab line then [] else line) lines in
  let margin := margin_of lines in
  string_of_list_ascii
    (join_lines (map (fun line => default line (after_prefix margin line)) lines)).

(** Streamlit's [clean_text], which [st.markdown] applies to its argument:
    the Markdown source that reaches the page. *)
Definition clean_text (s : string) : string := strip (dedent s).

(** Whether [needle] occurs in [hay]. *)
Fixpoint occurs_in (needle hay : list ascii) : bool :=
  match after_prefix needle hay with
  | Some _ => true
  | None => match hay with
            | [] => false
            | _ :: hay' => occurs_in needle hay'
            end
  end.

(** What the user did to the page before this run, by widget label: the
    option picked in a selectbox, the text typed in a text area, the
    position of a slider, and the button that was pressed.  [None] is a
    widget left alone. *)
Record widgets := Widgets {
  picked : string -> option nat;
  typed : string -> option string;
  slid : string -> option Z;
  pressed : string -> bool }.

(** One handle invocation: [callee(text, **kwargs)]. *)
Record call {B : backend} := Call {
  callee : handle B;
  text : string;
  kwargs : list (string * Z) }.

Abbreviation registry B := (gmap string (handle B)).

(** The state of the server process.  [cached] is the entry of
    [st.cache_resource] for [load_pipelines]: the returned value and the
    elements the function emitted while it ran.  [constructed] and [invoked]
    log the calls into the transformers library; [page] is the page of the
    run in progress. *)
Record proc {B : backend} := Proc {
  world : ext B;
  cached : option (option (registry B) * list element);
  constructed : list pipe_spec;
  invoked : list (@call B);
  page : list element }.

(** A fresh process: nothing cached, nothing called. *)
Definition boot {B : backend} (w : ext B) : @proc B :=
  Proc B w None [] [] [].

(** How a piece of script ends: with a value, with an exception, or with
    Streamlit's stop signal, which no [except Exception] catches. *)
Inductive outcome (A : Type) :=
| Ret (a : A)
| Raise (e : exn)
| Stop.
Arguments Ret {A} a.
Arguments Raise {A} e.
Arguments Stop {A}.

Definition script (B : backend) (A : Type) : Type :=
  @proc B -> outcome A * @proc B.

#[global] Instance script_ret (B : backend) : MRet (script B) :=
  fun A a p => (Ret a, p).

#[global] Instance script_bind (B : backend) : MBind (script B) :=
  fun A C k m p =>
    match m p with
    | (Ret a, p') => k a p'
    | (Raise e, p') => (Raise e, p')
    | (Stop, p') => (Stop, p')
    end.

(** What a selectbox shows: the option the user picked, the first one when
    nothing (or nothing that exists) was picked. *)
Definition selectbox_value (w : widgets) (label : string) (options : list string) : string :=
  let first := default "" (head options) in
  default first (i ← picked w label; options !! i).

(** What a text area holds: the text the user typed, the initial [value]
    when the area was left alone. *)
Definition text_value (w : widgets) (label value : string) : string :=
  default value (typed w label).

(** The bounds of [st.slider(label, min_value, max_value, value)].  The
    slider does not reject an initial [value] outside the given bounds; it
    widens the bounds until they contain it: Streamlit computes
    [min_value = min(min_value, max_value)], then
    [max_value = max(min_value, max_value)], then
    [min_value = min(value, min_value)] and
    [max_value = max(value, max_value)]. *)
Definition slider_bounds (min_value max_value value : Z) : Z * Z :=
  let lo := Z.min min_value max_value in
  let hi := Z.max lo max_value in
  (Z.min value lo, Z.max value hi).

(** Where a slider stands: the position the user chose if the slider
    offers it, the initial [value] otherwise. *)
Definition slider_value (w : widgets) (label : string) (min_value max_value value : Z) : Z :=
  let '(lo, hi) := slider_bounds min_value max_value value in
  match slid w label with
  | Some v => if (lo <=? v) && (v <=? hi) then v else value
  | None => value
  end.

Section Streamlit.
Context {B : backend}.

Definition raise {A : Type} (e : exn) : script B A := fun p => (Raise e, p).

(** A pure computation that may raise, run inside the script. *)
Definition lift {A : Type} (r : exn + A) : script B A :=
  match r with
  | inl e => raise e
  | inr a => mret a
  end.

(** [try: body / except Exception as e: handler e].  What the body did
    before it raised stays done. *)
Definition try_except {A : Type} (body : script B A) (handler : exn -> script B A)
  : script B A :=
  fun p =>
    match body p with
    | (Raise e, p') => handler e p'
    | r => r
    end.

Definition emit (el : element) : script B unit :=
  fun p => (Ret tt, Proc B (world p) (cached p) (constructed p) (invoked p) (page p ++ [el])).

(** [with st.spinner(text): body].  The spinner is a placeholder that is
    removed when the block is left, also by an exception: it leaves nothing
    on the page. *)
Definition with_spinner {A : Type} (text : string) (body : script B A) : script B A :=
  body.

(** [st.stop()]. *)
Definition st_stop {A : Type} : script B A := fun p => (Stop, p).

(** [@st.cache_resource] on a function without arguments.  On a miss the
    function runs and its return value, whatever it is, is stored with the
    elements it emitted; an exception leaves the cache empty.  On a hit the
    stored value is returned and the stored elements are replayed; the
    function does not run. *)
Definition cache_resource (f : script B (option (registry B)))
  : script B (option (registry B)) :=
  fun p =>
    match cached p with
    | Some (v, replay) =>
        (Ret v, Proc B (world p) (cached p) (constructed p) (invoked p) (page p ++ replay))
    | None =>
        match f p with
        | (Ret v, p') =>
            (Ret v, Proc B (world p') (Some (v, drop (length (page p)) (page p')))
                      (constructed p') (invoked p') (page p'))
        | r => r
        end
    end.

(** [st.sidebar.selectbox(label, options)]. *)
Definition st_sidebar_selectbox (w : widgets) (label : string) (options : list string)
  : script B string :=
  let value := selectbox_value w label options in
  emit (SidebarSelectbox label options value);; mret value.

(** [st.text_area(label, value, height=...)]. *)
Definition st_text_area (w : widgets) (label value : string) (height : Z)
  : script B string :=
  let current := text_value w label value in
  emit (TextArea label current height);; mret current.

(** [st.slider(label, min_value, max_value, value)]. *)
Definition st_slider (w : widgets) (label : string) (min_value max_value value : Z)
  : script B Z :=
  let '(lo, hi) := slider_bounds min_value max_value value in
  let current := slider_value w label min_value max_value value in
  emit (Slider label lo hi current);; mret current.

(** [st.button(label)]: whether this run was caused by pressing it. *)
Definition st_button (w : widgets) (label : string) : script B bool :=
  emit (Button label);; mret (pressed w label).

(** [pipeline(...)]. *)
Definition pipeline (spec : pipe_spec) : script B (handle B) :=
  fun p =>
    let '(r, w') := be_pipeline B spec (world p) in
    let p' := Proc B w' (cached p) (constructed p ++ [spec]) (invoked p) (page p) in
    match r with
    | inl e => (Raise e, p')
    | inr h => (Ret h, p')
    end.

(** [h(text, **kw)]. *)
Definition invoke (h : handle B) (txt : string) (kw : list (string * Z))
  : script B pyval :=
  fun p =>
    let '(r, w') := be_call B h txt kw (world p) in
    let p' := Proc B w' (cached p) (constructed p) (invoked p ++ [Call B h txt kw]) (page p) in
    match r with
    | inl e => (Raise e, p')
    | inr v => (Ret v, p')
    end.

(** [pipes[key]]. *)
Definition subscript (pipes : option (registry B)) (key : string) : script B (handle B) :=
  match pipes with
  | None => raise (TypeError "'NoneType' object is not subscriptable")
  | Some m =>
      match m !! key with
      | Some h => mret h
      | None => raise (KeyError ("'" +:+ key +:+ "'"))
      end
  end.

(** [not pipes]: true of [None] and of the empty dict. *)
Definition falsy (pipes : option (registry B)) : bool :=
  match pipes with
  | None => true
  | Some m => bool_decide (size m = 0%nat)
  end.

End Streamlit.

(* ===================================================================== *)
(** * The script *)
(* ===================================================================== *)

Section Script.
Context {B : backend}.

(** ** Load Pipelines with Caching *)

Definition spec_text_gen : pipe_spec :=
  PipeSpec "text-generation" (Some "gpt2") None.
Definition spec_summarizer : pipe_spec :=
  PipeSpec "summarization" (Some "facebook/bart-large-cnn") None.
Definition spec_sentiment : pipe_spec :=
  PipeSpec "sentiment-analysis" None None.
Definition spec_ner : pipe_spec :=
  PipeSpec "ner" (Some "dslim/bert-base-NER") (Some "simple").
Definition spec_grammar : pipe_spec :=
  PipeSpec "text2text-generation" (Some "prithivida/grammar_error_correcter_v1") None.

(** The five constructions, in the order of the dict display. *)
Definition five_specs : list pipe_spec :=
  [spec_text_gen; spec_summarizer; spec_sentiment; spec_ner; spec_grammar].

(** The dict display: the five values are evaluated in order, then the
    dict is built. *)
Definition pipelines_dict : script B (registry B) :=
  text_gen ← pipeline spec_text_gen;
  summarizer ← pipeline spec_summarizer;
  sentiment ← pipeline spec_sentiment;
  ner ← pipeline spec_ner;
  grammar ← pipeline spec_grammar;
  mret (<["grammar" := grammar]>
         (<["ner" := ner]>
           (<["sentiment" := sentiment]>
             (<["summarizer" := summarizer]>
               (<["text_gen" := text_gen]> ∅))))).

(** The body of [load_pipelines], without its decorator. *)
Definition load_pipelines_body : script B (option (registry B)) :=
  try_except
    (pipelines ← with_spinner "Loading NLP models... This might take a moment!"
                   pipelines_dict;
     mret (Some pipelines))
    (fun e =>
       emit (ErrorBox ("Error loading models: " +:+ exn_message e
                       +:+ ". Please ensure PyTorch and transformers are installed."));;
       mret None).

Definition load_pipelines : script B (option (registry B)) :=
  cache_resource load_pipelines_body.

(** ** The sidebar *)

Definition task_options : list string :=
  ["Text Generation";
   "Summarization";
   "Sentiment Analysis";
   "Named Entity Recognition (NER)";
   "Grammar Correction"].

(** ** 1. Text generation *)

Definition text_generation_panel (w : widgets) (pipes : option (registry B))
  : script B unit :=
  emit (Header "📝 Text Generation (GPT-2)");;
  input_text ← st_text_area w "Enter your prompt:" "The future of AI is" 120;
  max_len ← st_slider w "Max Output Length" 50 500 200;
  go ← st_button w "Generate";
  if go : bool then
    result ← with_spinner "Generating text..."
               (h ← subscript pipes "text_gen";
                invoke h input_text [("max_length", max_len); ("num_return_sequences", 1)]);
    emit (Success "Done!");;
    first ← lift (getitem_0 result);
    generated ← lift (getitem first "generated_text");
    emit (Code generated "text")
  else mret tt.

(** ** 2. Summarization *)

Definition newline : string := String (ascii_of_nat 10) EmptyString.

Definition summarization_default : string :=
  newline
  +:+ "        The Amazon rainforest is the largest tropical rainforest in the world." +:+ newline
  +:+ "        It covers over 5.5 million square kilometers and is primarily located" +:+ newline
  +:+ "        within nine countries, with the majority in Brazil. The Amazon is" +:+ newline
  +:+ "        crucial for the global climate and harbors immense biodiversity. " +:+ newline
  +:+ "        ".

Definition summarization_panel (w : widgets) (pipes : option (registry B))
  : script B unit :=
  emit (Header "📑 Text Summarization (BART-Large-CNN)");;
  input_text ← st_text_area w "Enter long text:" summarization_default 300;
  max_len ← st_slider w "Max Summary Length" 20 200 60;
  min_len ← st_slider w "Min Summary Length" 10 (max_len - 10) 20;
  go ← st_button w "Summarize";
  if go : bool then
    summary ← with_spinner "Summarizing..."
                (h ← subscript pipes "summarizer";
                 invoke h input_text [("max_length", max_len); ("min_length", min_len)]);
    emit (Success "Summary Ready!");;
    first ← lift (getitem_0 summary);
    summary_text ← lift (getitem first "summary_text");
    emit (Written summary_text)
  else mret tt.

(** ** 3. Sentiment analysis *)

Definition sentiment_panel (w : widgets) (pipes : option (registry B))
  : script B unit :=
  emit (Header "😊 Sentiment Analysis");;
  input_text ← st_text_area w "Enter text:" "The food was amazing!" 120;
  go ← st_button w "Analyze";
  if go : bool then
    result ← with_spinner "Analyzing sentiment..."
               (h ← subscript pipes "sentiment";
                r ← invoke h input_text [];
                lift (getitem_0 r));
    emit (Subheader "Result:");;
    label ← lift (getitem result "label");
    if eq_str label "POSITIVE" then
      score ← lift (and_then (getitem result "score") format_4f);
      emit (Success ("POSITIVE (Confidence: " +:+ score +:+ ")"))
    else
      score ← lift (and_then (getitem result "score") format_4f);
      emit (ErrorBox ("NEGATIVE (Confidence: " +:+ score +:+ ")"))
  else mret tt.

(** ** 4. NER *)

(** The dict the comprehension builds for one entity. *)
Definition entity_row (ent : pyval) : exn + pyval :=
  and_then (getitem ent "word") (fun word =>
  and_then (getitem ent "entity_group") (fun entity_group =>
  and_then (and_then (getitem ent "score") format_4f) (fun score =>
  inr (PyDict [("Entity", word); ("Label", entity_group); ("Score", PyStr score)])))).

(** The list comprehension over the entities. *)
Fixpoint entity_rows (ents : list pyval) : exn + list pyval :=
  match ents with
  | [] => inr []
  | ent :: rest =>
      and_then (entity_row ent) (fun row =>
      and_then (entity_rows rest) (fun rows => inr (row :: rows)))
  end.

Definition ner_panel (w : widgets) (pipes : option (registry B))
  : script B unit :=
  emit (Header "📍 Named Entity Recognition");;
  input_text ← st_text_area w "Enter text:" "Elon Musk founded SpaceX in California." 120;
  go ← st_button w "Identify Entities";
  if go : bool then
    entities ← with_spinner "Detecting entities..."
                 (h ← subscript pipes "ner";
                  invoke h input_text []);
    emit (Success "Entities Identified:");;
    rows ← lift (and_then (iter entities) entity_rows);
    emit (Dataframe (PyList rows))
  else mret tt.

(** ** 5. Grammar correction *)

Definition grammar_panel (w : widgets) (pipes : option (registry B))
  : script B unit :=
  emit (Header "✍ Grammar Correction");;
  input_text ← st_text_area w "Enter incorrect text:"
                 "She go to school every days, but he not going tomorrow." 120;
  go ← st_button w "Correct";
  if go : bool then
    result ← with_spinner "Fixing grammar..."
               (h ← subscript pipes "grammar";
                r ← invoke h input_text [];
                first ← lift (getitem_0 r);
                lift (getitem first "generated_text"));
    emit (Success "Correction Complete!");;
    emit (Markdown ("**Original:** " +:+ input_text));;
    emit (Markdown ("**Corrected:** " +:+ format_plain (be_repr B) result))
  else mret tt.

(** ** The page *)

(** The chain [if task == ... elif ...] that picks the panel. *)
Definition dispatch (task : string) (w : widgets) (pipes : option (registry B))
  : script B unit :=
  if String.eqb task "Text Generation" then text_generation_panel w pipes
  else if String.eqb task "Summarization" then summarization_panel w pipes
  else if String.eqb task "Sentiment Analysis" then sentiment_panel w pipes
  else if String.eqb task "Named Entity Recognition (NER)" then ner_panel w pipes
  else if String.eqb task "Grammar Correction" then grammar_panel w pipes
  else mret tt.

Definition app (w : widgets) : script B unit :=
  emit (PageConfig "Hugging Face Transformer Demos" "wide" "expanded");;
  pipes ← load_pipelines;
  emit (Title "🧠 NLP Tasks with Hugging Face Transformers");;
  emit (Markdown "Perform Text Generation, Summarization, Sentiment Analysis, NER and Grammar Correction.");;
  task ← st_sidebar_selectbox w "*Select an NLP Task*" task_options;
  emit (SidebarMarkdown "---");;
  emit (SidebarInfo "✔ Models load only once using @st.cache_resource");;
  (if falsy pipes then st_stop else mret tt);;
  dispatch task w pipes.

(** One run of the script, as Streamlit's script runner performs it: the
    page starts empty, and an exception that the script does not catch ends
    the run and is shown on the page. *)
Definition run_script (w : widgets) (p : @proc B) : @proc B :=
  let '(o, p') :=
    app w (Proc B (world p) (cached p) (constructed p) (invoked p) []) in
  match o with
  | Raise e =>
      Proc B (world p') (cached p') (constructed p') (invoked p') (page p' ++ [ExceptionBox e])
  | _ => p'
  end.

(** The runs of a process, one per user interaction. *)
Definition run_all (ws : list widgets) (p : @proc B) : @proc B :=
  foldl (fun p w => run_script w p) p ws.

(** [n] calls of the loader in a row: the values returned and the state
    afterwards. *)
Fixpoint load_repeatedly (n : nat) (p : @proc B)
  : list (outcome (option (registry B))) * @proc B :=
  match n with
  | O => ([], p)
  | S k =>
      let '(o, p') := load_pipelines p in
      let '(os, p'') := load_repeatedly k p' in
      (o :: os, p'')
  end.

End Script.

(* ===================================================================== *)
(** * The vocabulary of the properties *)
(* ===================================================================== *)

(** The five tasks of the sidebar, and what the script associates with
    each: the option of the selectbox, the key in the registry, the text
    area of the panel and its button. *)
Inductive task :=
| TextGeneration
| Summarization
| SentimentAnalysis
| NamedEntityRecognition
| GrammarCorrection.

Definition task_option (t : task) : string :=
  match t with
  | TextGeneration => "Text Generation"
  | Summarization => "Summarization"
  | SentimentAnalysis => "Sentiment Analysis"
  | NamedEntityRecognition => "Named Entity Recognition (NER)"
  | GrammarCorrection => "Grammar Correction"
  end.

Definition task_key (t : task) : string :=
  match t with
  | TextGeneration => "text_gen"
  | Summarization => "summarizer"
  | SentimentAnalysis => "sentiment"
  | NamedEntityRecognition => "ner"
  | GrammarCorrection => "grammar"
  end.

Definition text_label (t : task) : string :=
  match t with
  | TextGeneration => "Enter your prompt:"
  | Summarization => "Enter long text:"
  | SentimentAnalysis => "Enter text:"
  | NamedEntityRecognition => "Enter text:"
  | GrammarCorrection => "Enter incorrect text:"
  end.

Definition text_initial (t : task) : string :=
  match t with
  | TextGeneration => "The future of AI is"
  | Summarization => summarization_default
  | SentimentAnalysis => "The food was amazing!"
  | NamedEntityRecognition => "Elon Musk founded SpaceX in California."
  | GrammarCorrection => "She go to school every days, but he not going tomorrow."
  end.

Definition button_label (t : task) : string :=
  match t with
  | TextGeneration => "Generate"
  | Summarization => "Summarize"
  | SentimentAnalysis => "Analyze"
  | NamedEntityRecognition => "Identify Entities"
  | GrammarCorrection => "Correct"
  end.

(** The user is on the panel of task [t] and has pressed its button. *)
Definition submits (w : widgets) (t : task) : Prop :=
  selectbox_value w "*Select an NLP Task*" task_options = task_option t
  /\ pressed w (button_label t) = true.

(** The text in the text area of the panel of [t]. *)
Definition panel_text (w : widgets) (t : task) : string :=
  text_value w (text_label t) (text_initial t).

(** The user supplied the text [T] and the parameters [P]: [T] was typed in
    the text area of the panel, and the sliders of the panel stand at the
    values of [P], each within what its slider offers. *)
Definition supplies (w : widgets) (t : task) (T : string) (P : list (string * Z)) : Prop :=
  typed w (text_label t) = Some T
  /\ match t with
     | TextGeneration =>
         exists max_len,
           P = [("max_length", max_len)]
           /\ slid w "Max Output Length" = Some max_len
           /\ 50 <= max_len <= 500
     | Summarization =>
         exists max_len min_len,
           P = [("max_length", max_len); ("min_length", min_len)]
           /\ slid w "Max Summary Length" = Some max_len
           /\ 20 <= max_len <= 200
           /\ slid w "Min Summary Length" = Some min_len
           /\ 10 <= min_len <= Z.max 20 (max_len - 10)
     | _ => P = []
     end.

(** The keyword arguments of the call of the panel of [t], as the sliders
    stand. *)
Definition panel_kwargs (w : widgets) (t : task) : list (string * Z) :=
  match t with
  | TextGeneration =>
      [("max_length", slider_value w "Max Output Length" 50 500 200);
       ("num_return_sequences", 1)]
  | Summarization =>
      let max_len := slider_value w "Max Summary Length" 20 200 60 in
      [("max_length", max_len);
       ("min_length", slider_value w "Min Summary Length" 10 (max_len - 10) 20)]
  | _ => []
  end.

(** The widgets of the panel of [t], as the script lays them out. *)
Definition panel_form (w : widgets) (t : task) : list element :=
  match t with
  | TextGeneration =>
      [Header "📝 Text Generation (GPT-2)";
       TextArea "Enter your prompt:" (panel_text w t) 120;
       Slider "Max Output Length" 50 500 (slider_value w "Max Output Length" 50 500 200);
       Button "Generate"]
  | Summarization =>
      let max_len := slider_value w "Max Summary Length" 20 200 60 in
      let '(lo, hi) := slider_bounds 10 (max_len - 10) 20 in
      [Header "📑 Text Summarization (BART-Large-CNN)";
       TextArea "Enter long text:" (panel_text w t) 300;
       Slider "Max Summary Length" 20 200 max_len;
       Slider "Min Summary Length" lo hi
         (slider_value w "Min Summary Length" 10 (max_len - 10) 20);
       Button "Summarize"]
  | SentimentAnalysis =>
      [Header "😊 Sentiment Analysis";
       TextArea "Enter text:" (panel_text w t) 120;
       Button "Analyze"]
  | NamedEntityRecognition =>
      [Header "📍 Named Entity Recognition";
       TextArea "Enter text:" (panel_text w t) 120;
       Button "Identify Entities"]
  | GrammarCorrection =>
      [Header "✍ Grammar Correction";
       TextArea "Enter incorrect text:" (panel_text w t) 120;
       Button "Correct"]
  end.

(** The keyword arguments that do not come from the user. *)
Definition fixed_kwargs (t : task) : list (string * Z) :=
  match t with
  | TextGeneration => [("num_return_sequences", 1)]
  | _ => []
  end.

(** The page above the panel: the page configuration, what the loader put
    on the page, the title, and the sidebar. *)
Definition chrome (w : widgets) (loader : list element) : list element :=
  [PageConfig "Hugging Face Transformer Demos" "wide" "expanded"]
  ++ loader
  ++ [Title "🧠 NLP Tasks with Hugging Face Transformers";
      Markdown "Perform Text Generation, Summarization, Sentiment Analysis, NER and Grammar Correction.";
      SidebarSelectbox "*Select an NLP Task*" task_options
        (selectbox_value w "*Select an NLP Task*" task_options);
      SidebarMarkdown "---";
      SidebarInfo "✔ Models load only once using @st.cache_resource"].

(** The keys of a fully populated registry. *)
Definition five_keys : gset string :=
  {[ "text_gen"; "summarizer"; "sentiment"; "ner"; "grammar" ]}.

(** The registry is ready: the cache holds a registry with the five keys. *)
Definition ready {B : backend} (p : @proc B) (reg : registry B) : Prop :=
  exists replay, cached p = Some (Some reg, replay) /\ dom reg = five_keys.

(** Some construction of the list raises when it is reached, the ones
    before it having succeeded. *)
Inductive construction_fails {B : backend} : list pipe_spec -> ext B -> Prop :=
| fails_here spec rest w e w' :
    be_pipeline B spec w = (inl e, w') ->
    construction_fails (spec :: rest) w
| fails_later spec rest w h w' :
    be_pipeline B spec w = (inr h, w') ->
    construction_fails rest w' ->
    construction_fails (spec :: rest) w.

(** An entity record as the NER handle returns it: a dict with (at least)
    the fields [word], [entity_group] and a float [score]. *)
Definition entity_record (fields : pyval * pyval * float) (ent : pyval) : Prop :=
  let '(word, entity_group, score) := fields in
  exists d, ent = PyDict d
    /\ dict_get d "word" = Some word
    /\ dict_get d "entity_group" = Some entity_group
    /\ dict_get d "score" = Some (PyFloat score).

(** The row of the table for an entity. *)
Definition table_row (fields : pyval * pyval * float) : pyval :=
  let '(word, entity_group, score) := fields in
  PyDict [("Entity", word); ("Label", entity_group); ("Score", PyStr (format_float_4f score))].

(** A float that is a number between 0 and 1, the two zeros included. *)
Definition unit_interval (x : spec_float) : Prop :=
  match x with
  | S754_zero _ => True
  | S754_finite false m e =>
      if 0 <=? e then Z.pos m * 2 ^ e <= 1 else Z.pos m <= 2 ^ (- e)
  | _ => False
  end.

(** What a stretch of script may do to the process: it never touches the
    cache or constructs a pipeline, and it calls a handle at most once; if
    it calls none, the world outside is as before. *)
Definition framed {B : backend} (p q : @proc B) : Prop :=
  cached q = cached p
  /\ constructed q = constructed p
  /\ ((invoked q = invoked p /\ world q = world p)
      \/ exists c, invoked q = invoked p ++ [c]).

(** The constructions of the list succeed one after the other, from the
    world [w] to the world [w'], and give the handles [hs]. *)
Inductive constructions_give {B : backend}
  : list pipe_spec -> ext B -> list (handle B) -> ext B -> Prop :=
| give_nil w : constructions_give [] w [] w
| give_cons spec rest w h w1 hs w' :
    be_pipeline B spec w = (inr h, w1) ->
    constructions_give rest w1 hs w' ->
    constructions_give (spec :: rest) w (h :: hs) w'.

(** The construction at position [k] of the list is the first to raise; it
    raises [e] and leaves the world [w']. *)
Inductive fails_at {B : backend}
  : nat -> exn -> list pipe_spec -> ext B -> ext B -> Prop :=
| fails_at_first spec rest w e w' :
    be_pipeline B spec w = (inl e, w') ->
    fails_at 0 e (spec :: rest) w w'
| fails_at_next k e spec rest w h w1 w' :
    be_pipeline B spec w = (inr h, w1) ->
    fails_at k e rest w1 w' ->
    fails_at (S k) e (spec :: rest) w w'.

(** The text of the error box of the loader. *)
Definition load_error (e : exn) : string :=
  "Error loading models: " +:+ exn_message e
  +:+ ". Please ensure PyTorch and transformers are installed.".

(** What a panel shows under its widgets when the handle answers with an
    empty list. *)
Definition on_empty_answer (t : task) : list element :=
  match t with
  | TextGeneration =>
      [Success "Done!"; ExceptionBox (IndexError "list index out of range")]
  | Summarization =>
      [Success "Summary Ready!"; ExceptionBox (IndexError "list index out of range")]
  | SentimentAnalysis => [ExceptionBox (IndexError "list index out of range")]
  | NamedEntityRecognition =>
      [Success "Entities Identified:"; Dataframe (PyList [])]
  | GrammarCorrection => [ExceptionBox (IndexError "list index out of range")]
  end.

(* ===================================================================== *)
(** * A scripted backend *)
(* ===================================================================== *)

(** A backend for examples: the handle of a pipeline is its task name, the
    constructions listed in [broken] raise, and a call answers by
    [reply]. *)
Definition scripted (broken : pipe_spec -> bool) (reply : string -> string -> exn + pyval)
  : backend :=
  {| ext := unit;
     handle := string;
     be_pipeline := fun spec w =>
       (if broken spec then inl (Exn "OSError" "model not found")
        else inr (task_name spec), w);
     be_call := fun h txt kw w => (reply h txt, w);
     be_repr := fun v => "<" +:+ type_name v +:+ ">" |}.

Definition nothing_broken (spec : pipe_spec) : bool := false.

Definition ner_broken (spec : pipe_spec) : bool := String.eqb (task_name spec) "ner".

(** Every call returns one record in the shape of its task. *)
Definition canned_reply (h txt : string) : exn + pyval :=
  if String.eqb h "sentiment-analysis" then
    inr (PyList [PyDict [("label", PyStr "POSITIVE"); ("score", PyFloat 0.9998)]])
  else if String.eqb h "ner" then
    inr (PyList
      [PyDict [("entity_group", PyStr "PER"); ("score", PyFloat 0.99); ("word", PyStr "Elon Musk")];
       PyDict [("entity_group", PyStr "ORG"); ("score", PyFloat 0.95); ("word", PyStr "SpaceX")];
       PyDict [("entity_group", PyStr "LOC"); ("score", PyFloat 0.97); ("word", PyStr "California")]])
  else if String.eqb h "summarization" then
    inr (PyList [PyDict [("summary_text", PyStr "The Amazon is the largest rainforest.")]])
  else
    inr (PyList [PyDict [("generated_text", PyStr "She goes to school every day.")]]).

(** The sentiment handle answers with a label that is neither of the two. *)
Definition neutral_reply (h txt : string) : exn + pyval :=
  if String.eqb h "sentiment-analysis" then
    inr (PyList [PyDict [("label", PyStr "NEUTRAL"); ("score", PyFloat 0.5)]])
  else canned_reply h txt.

(** The sentiment handle raises; the others answer. *)
Definition sentiment_down (h txt : string) : exn + pyval :=
  if String.eqb h "sentiment-analysis" then
    inl (Exn "RuntimeError" "CUDA out of memory")
  else canned_reply h txt.

Definition demo : backend := scripted nothing_broken canned_reply.
Definition demo_neutral : backend := scripted nothing_broken neutral_reply.
Definition demo_down : backend := scripted nothing_broken sentiment_down.
Definition demo_broken : backend := scripted ner_broken canned_reply.

(** The registry of the scripted backends when nothing is broken. *)
Definition demo_registry : gmap string string :=
  <["grammar" := "text2text-generation"]>
    (<["ner" := "ner"]>
      (<["sentiment" := "sentiment-analysis"]>
        (<["summarizer" := "summarization"]>
          (<["text_gen" := "text-generation"]> ∅)))).

(** Widgets left alone except for the task picked ([i]-th option) and the
    button pressed. *)
Definition press (i : nat) (button : string) : widgets :=
  {| picked := fun _ => Some i;
     typed := fun _ => None;
     slid := fun _ => None;
     pressed := fun l => String.eqb l button |}.

(** The same widgets with [T] typed in the text area [label]. *)
Definition typing (label T : string) (w : widgets) : widgets :=
  {| picked := picked w;
     typed := fun l => if String.eqb l label then Some T else typed w l;
     slid := slid w;
     pressed := pressed w |}.

(** The same widgets with the slider [label] moved to [v]. *)
Definition sliding (label : string) (v : Z) (w : widgets) : widgets :=
  {| picked := picked w;
     typed := typed w;
     slid := fun l => if String.eqb l label then Some v else slid w l;
     pressed := pressed w |}.

(** Nothing touched: the first visit of the page. *)
Definition untouched : widgets :=
  {| picked := fun _ => None;
     typed := fun _ => None;
     slid := fun _ => None;
     pressed := fun _ => false |}.

(** A process of a scripted backend after its first visit. *)
Definition visited (B : backend) (w0 : ext B) : @proc B :=
  run_script untouched (boot w0).

(** Every handle answers with the empty list. *)
Definition empty_reply (h txt : string) : exn + pyval := inr (PyList []).

(** The NER handle finds two entities; the second has no [word]. *)
Definition gappy_reply (h txt : string) : exn + pyval :=
  if String.eqb h "ner" then
    inr (PyList
      [PyDict [("entity_group", PyStr "PER"); ("score", PyFloat 0.99); ("word", PyStr "Elon Musk")];
       PyDict [("entity_group", PyStr "ORG"); ("score", PyFloat 0.95)]])
  else canned_reply h txt.

Definition demo_empty : backend := scripted nothing_broken empty_reply.
Definition demo_gappy : backend := scripted nothing_broken gappy_reply.

(* ===================================================================== *)
(** * Properties *)
(* ===================================================================== *)

(** Case analysis on the pure steps of a panel, innermost first. *)
Ltac run_to_end :=
  repeat (simpl;
          match goal with
          | |- context [match getitem_0 ?v with _ => _ end] => destruct (getitem_0 v) eqn:?
          | |- context [match getitem ?v ?k with _ => _ end] => destruct (getitem v k) eqn:?
          | |- context [match and_then ?a ?k with _ => _ end] => destruct (and_then a k) eqn:?
          | |- context [if eq_str ?a ?b then _ else _] => destruct (eq_str a b) eqn:?
          end);
  simpl.

(** Follow a chain of constructions through the loader. *)
Ltac follow_chain :=
  repeat match goal with
         | H : constructions_give (_ :: _) _ _ _ |- _ => inversion H; subst; clear H
         | H : constructions_give [] _ _ _ |- _ => inversion H; subst; clear H
         | H : fails_at _ _ (_ :: _) _ _ |- _ => inversion H; subst; clear H
         | H : fails_at _ _ [] _ _ |- _ => inversion H
         end;
  repeat match goal with
         | H : be_pipeline _ _ _ = _ |- _ => rewrite H; clear H; simpl
         end.

Section Properties.
Context {B : backend}.

Implicit Types (p : @proc B) (reg : registry B) (w : widgets) (t : task).

(** ** The registry *)

Lemma falsy_ready reg : dom reg = five_keys -> falsy (Some reg) = false.
Proof.
  intros Hdom. unfold falsy. apply bool_decide_eq_false_2.
  rewrite <- size_dom, Hdom. vm_compute. discriminate.
Qed.

Lemma lookup_ready reg t : dom reg = five_keys -> is_Some (reg !! task_key t).
Proof.
  intros Hdom. apply elem_of_dom. rewrite Hdom.
  destruct t; unfold five_keys; simpl; set_solver.
Qed.

(** A hit: the stored value, the stored elements, and nothing else. *)
Lemma load_pipelines_hit p v replay :
  cached p = Some (v, replay) ->
  load_pipelines p =
    (Ret v, Proc B (world p) (cached p) (constructed p) (invoked p) (page p ++ replay)).
Proof.
  intros Hc. unfold load_pipelines, cache_resource. rewrite Hc. reflexivity.
Qed.

(** A miss: the loader returns, having attempted a prefix of the five
    constructions; it returns a registry only if it attempted all five,
    and then the registry has the five keys. *)
Lemma load_pipelines_miss p :
  cached p = None ->
  exists v k replay,
    load_pipelines p =
      (Ret v, Proc B (world (load_pipelines p).2) (Some (v, replay))
                (constructed p ++ take k five_specs) (invoked p) (page p ++ replay))
    /\ (forall reg, v = Some reg -> dom reg = five_keys /\ k = 5%nat /\ replay = []).
Proof.
  intros Hc. destruct p as [w0 c cs iv pg]. simpl in Hc. subst c.
  unfold load_pipelines, cache_resource, load_pipelines_body, try_except,
    with_spinner, pipelines_dict, pipeline, emit. simpl.
  unfold mbind, script_bind, mret, script_ret. simpl.
  destruct (be_pipeline B spec_text_gen w0) as [[e1|h1] w1] eqn:E1; simpl.
  { exists None, 1%nat. eexists. split; [|discriminate].
    rewrite drop_app_length. reflexivity. }
  destruct (be_pipeline B spec_summarizer w1) as [[e2|h2] w2] eqn:E2; simpl.
  { exists None, 2%nat. eexists. split; [|discriminate].
    rewrite drop_app_length, <- ?app_assoc. reflexivity. }
  destruct (be_pipeline B spec_sentiment w2) as [[e3|h3] w3] eqn:E3; simpl.
  { exists None, 3%nat. eexists. split; [|discriminate].
    rewrite drop_app_length, <- ?app_assoc. reflexivity. }
  destruct (be_pipeline B spec_ner w3) as [[e4|h4] w4] eqn:E4; simpl.
  { exists None, 4%nat. eexists. split; [|discriminate].
    rewrite drop_app_length, <- ?app_assoc. reflexivity. }
  destruct (be_pipeline B spec_grammar w4) as [[e5|h5] w5] eqn:E5; simpl.
  { exists None, 5%nat. eexists. split; [|discriminate].
    rewrite drop_app_length, <- ?app_assoc. reflexivity. }
  eexists _, 5%nat, []. split.
  { rewrite drop_ge by lia. rewrite app_nil_r, <- !app_assoc. reflexivity. }
  intros reg [= <-]. split; [|done].
  rewrite !dom_insert_L, dom_empty_L. unfold five_keys. set_solver.
Qed.

(** ** The page above the panel *)

Lemma app_ready w p reg replay :
  cached p = Some (Some reg, replay) ->
  dom reg = five_keys ->
  app w (Proc B (world p) (cached p) (constructed p) (invoked p) []) =
    dispatch (selectbox_value w "*Select an NLP Task*" task_options) w (Some reg)
      (Proc B (world p) (cached p) (constructed p) (invoked p) (chrome w replay)).
Proof.
  intros Hc Hdom. destruct p as [w0 c cs iv pg]. simpl in *. subst c.
  unfold app, load_pipelines, cache_resource, st_sidebar_selectbox, emit, st_stop.
  unfold mbind, script_bind, mret, script_ret. simpl.
  pose proof (falsy_ready reg Hdom) as Hf. unfold falsy in Hf. rewrite Hf.
  unfold chrome. rewrite <- !app_assoc. reflexivity.
Qed.

Lemma run_invokes w p reg t h :
  ready p reg ->
  submits w t ->
  reg !! task_key t = Some h ->
  invoked (run_script w p) = invoked p ++ [Call B h (panel_text w t) (panel_kwargs w t)]
  /\ cached (run_script w p) = cached p
  /\ constructed (run_script w p) = constructed p.
Proof.
  intros (replay & Hc & Hdom) [Hsel Hgo] Hh.
  unfold run_script. rewrite (app_ready w p reg replay Hc Hdom), Hsel.
  destruct t; simpl in Hh, Hgo |- *; unfold dispatch; simpl;
    unfold text_generation_panel, summarization_panel, sentiment_panel, ner_panel,
      grammar_panel, st_text_area, st_slider, st_button, with_spinner, subscript,
      invoke, emit, lift, raise;
    unfold mbind, script_bind, mret, script_ret; simpl;
    rewrite Hgo, Hh; simpl;
    (destruct (be_call B h _ _ (world p)) as [[e|v] w']; simpl; [try done|]);
    run_to_end; done.
Qed.

(** ** Repeated loading *)

Lemma five_specs_nodup : NoDup five_specs.
Proof. apply (bool_decide_unpack _). vm_compute. reflexivity. Qed.

Lemma load_repeatedly_hit n p v replay :
  cached p = Some (v, replay) ->
  exists pn,
    load_repeatedly n p = (replicate n (Ret v), pn)
    /\ world pn = world p
    /\ cached pn = cached p
    /\ constructed pn = constructed p
    /\ invoked pn = invoked p.
Proof.
  revert p. induction n as [|n IH]; intros p Hc; simpl.
  - exists p. done.
  - rewrite (load_pipelines_hit p v replay Hc).
    destruct (IH (Proc B (world p) (cached p) (constructed p) (invoked p) (page p ++ replay)) Hc)
      as (pn & -> & Hw & Hca & Hco & Hi).
    exists pn. done.
Qed.

(** When the five constructions succeed the loader returns, stores and
    leaves on the page nothing but the registry of the five handles. *)
Lemma load_pipelines_gives p h1 h2 h3 h4 h5 (w5 : ext B) :
  cached p = None ->
  constructions_give five_specs (world p) [h1; h2; h3; h4; h5] w5 ->
  exists reg,
    load_pipelines p =
      (Ret (Some reg),
       Proc B w5 (Some (Some reg, [])) (constructed p ++ five_specs) (invoked p) (page p))
    /\ reg !! "text_gen" = Some h1
    /\ reg !! "summarizer" = Some h2
    /\ reg !! "sentiment" = Some h3
    /\ reg !! "ner" = Some h4
    /\ reg !! "grammar" = Some h5
    /\ dom reg = five_keys.
Proof.
  intros Hc Hgive. destruct p as [w0 c cs iv pg]. simpl in *. subst c.
  unfold load_pipelines, cache_resource, load_pipelines_body, try_except,
    with_spinner, pipelines_dict, pipeline, emit, five_specs in *.
  unfold mbind, script_bind, mret, script_ret. simpl.
  follow_chain.
  eexists. split.
  - rewrite drop_ge by lia. rewrite <- !app_assoc. reflexivity.
  - repeat split; reflexivity.
Qed.

(** C1. Calling the loader again and again in one process gives the value
    of the first call every time, constructs nothing after the first call
    and leaves the world outside as it is, so that over all the calls each
    of the five constructions ran at most once.  When the five
    constructions succeed, that value is the mapping of the five keys to
    the five handles that were constructed, and every later call returns
    this same mapping. *)
Theorem load_pipelines_once (w0 : ext B) (n : nat) :
  (exists v p1 pn,
     load_pipelines (boot w0) = (Ret v, p1)
     /\ load_repeatedly n p1 = (replicate n (Ret v), pn)
     /\ constructed pn = constructed p1
     /\ world pn = world p1
     /\ cached pn = cached p1
     /\ NoDup (constructed pn)
     /\ (forall reg, v = Some reg -> dom reg = five_keys /\ constructed pn = five_specs))
  /\ (forall h1 h2 h3 h4 h5 (w5 : ext B),
        constructions_give five_specs w0 [h1; h2; h3; h4; h5] w5 ->
        exists reg p1 pn,
          load_pipelines (boot w0) = (Ret (Some reg), p1)
          /\ reg !! "text_gen" = Some h1
          /\ reg !! "summarizer" = Some h2
          /\ reg !! "sentiment" = Some h3
          /\ reg !! "ner" = Some h4
          /\ reg !! "grammar" = Some h5
          /\ dom reg = five_keys
          /\ load_repeatedly n p1 = (replicate n (Ret (Some reg)), pn)
          /\ constructed p1 = five_specs
          /\ constructed pn = five_specs
          /\ world p1 = w5
          /\ world pn = w5).
Proof.
  split.
  - destruct (load_pipelines_miss (boot w0) eq_refl) as (v & k & replay & Hload & Hreg).
    set (p1 := (load_pipelines (boot w0)).2) in *.
    destruct (load_repeatedly_hit n
                (Proc B (world p1) (Some (v, replay)) ([] ++ take k five_specs) []
                   ([] ++ replay)) v replay eq_refl)
      as (pn & Hn & Hw & Hca & Hco & Hi).
    eexists v, _, pn. split; [exact Hload|].
    split; [exact Hn|]. simpl in *.
    repeat split; try done.
    + rewrite Hco. eapply sublist_NoDup; [apply five_specs_nodup|apply sublist_take].
    + apply (Hreg reg H).
    + rewrite Hco. destruct (Hreg reg H) as (_ & -> & _). reflexivity.
  - intros h1 h2 h3 h4 h5 w5 Hgive.
    destruct (load_pipelines_gives (boot w0) h1 h2 h3 h4 h5 w5 eq_refl Hgive)
      as (reg & Hload & H1 & H2 & H3 & H4 & H5 & Hdom).
    destruct (load_repeatedly_hit n
                (Proc B w5 (Some (Some reg, [])) ([] ++ five_specs) [] [])
                (Some reg) [] eq_refl)
      as (pn & Hn & Hw & Hca & Hco & Hi).
    exists reg, (Proc B w5 (Some (Some reg, [])) ([] ++ five_specs) [] []), pn.
    split; [exact Hload|]. do 6 (split; [assumption|]).
    split; [exact Hn|]. simpl in *. rewrite Hco, Hw. done.
Qed.

(** ** Registry failure *)

(** Follow a failing chain of constructions through the loader. *)
Ltac follow_constructions :=
  repeat match goal with
         | H : construction_fails (_ :: _) _ |- _ => inversion H; subst; clear H
         | H : construction_fails [] _ |- _ => inversion H
         end;
  repeat match goal with
         | H : be_pipeline _ _ _ = _ |- _ => rewrite H; clear H; simpl
         end.

(** When a construction fails the loader returns [None], stores it, and
    leaves one error box. *)
Lemma load_pipelines_fails p :
  cached p = None ->
  construction_fails five_specs (world p) ->
  exists msg p',
    load_pipelines p = (Ret None, p')
    /\ cached p' = Some (None, [ErrorBox msg])
    /\ invoked p' = invoked p.
Proof.
  intros Hc Hfail. destruct p as [w0 c cs iv pg]. simpl in *. subst c.
  unfold load_pipelines, cache_resource, load_pipelines_body, try_except,
    with_spinner, pipelines_dict, pipeline, emit, five_specs in *.
  unfold mbind, script_bind, mret, script_ret. simpl.
  follow_constructions;
    (eexists _, _; split; [reflexivity|]; simpl; split; [|reflexivity];
     rewrite drop_app_length; reflexivity).
Qed.

(** The first run of such a process stops above the panels. *)
Lemma first_run_fails w p :
  cached p = None ->
  construction_fails five_specs (world p) ->
  exists msg,
    cached (run_script w p) = Some (None, [ErrorBox msg])
    /\ invoked (run_script w p) = invoked p
    /\ page (run_script w p) = chrome w [ErrorBox msg].
Proof.
  intros Hc Hfail. destruct p as [w0 c cs iv pg]. simpl in *. subst c.
  unfold run_script, app, load_pipelines, cache_resource, load_pipelines_body,
    try_except, with_spinner, pipelines_dict, pipeline, st_sidebar_selectbox, emit,
    st_stop, five_specs in *.
  unfold mbind, script_bind, mret, script_ret. simpl.
  follow_constructions; (eexists; split; [reflexivity|split; reflexivity]).
Qed.

(** Every later run stops there too: the cache answers [None]. *)
Lemma run_disabled w p replay :
  cached p = Some (None, replay) ->
  run_script w p =
    Proc B (world p) (cached p) (constructed p) (invoked p) (chrome w replay).
Proof.
  intros Hc. destruct p as [w0 c cs iv pg]. simpl in *. subst c.
  unfold run_script, app, load_pipelines, cache_resource, st_sidebar_selectbox,
    emit, st_stop.
  unfold mbind, script_bind, mret, script_ret. simpl.
  unfold chrome. rewrite <- !app_assoc. reflexivity.
Qed.

Lemma chrome_no_panel w msg :
  Forall (fun el => is_panel_widget el = false) (chrome w [ErrorBox msg]).
Proof. unfold chrome. simpl. repeat constructor. Qed.

Lemma run_all_disabled ws p msg :
  cached p = Some (None, [ErrorBox msg]) ->
  Forall (fun el => is_panel_widget el = false) (page p) ->
  let q := run_all ws p in
  cached q = Some (None, [ErrorBox msg])
  /\ invoked q = invoked p
  /\ Forall (fun el => is_panel_widget el = false) (page q).
Proof.
  revert p. induction ws as [|w ws IH]; intros p Hc Hpage; simpl.
  - done.
  - specialize (IH (run_script w p)).
    rewrite (run_disabled w p _ Hc) in IH |- *. simpl in IH.
    apply IH; [exact Hc|apply chrome_no_panel].
Qed.

(** C2. If one of the five constructions fails, the loader returns [None];
    from then on the cache never holds a registry, and whatever the user
    does for the rest of the process, no run puts a panel widget on the
    page or invokes a handle. *)
Theorem registry_failure_disables (w0 : ext B) :
  construction_fails five_specs w0 ->
  (exists p1, load_pipelines (boot w0) = (Ret None, p1))
  /\ forall ws,
       let q := run_all ws (boot w0) in
       Forall (fun el => is_panel_widget el = false) (page q)
       /\ invoked q = []
       /\ (forall reg replay, cached q <> Some (Some reg, replay)).
Proof.
  intros Hfail. split.
  - destruct (load_pipelines_fails (boot w0) eq_refl Hfail) as (msg & p' & Hl & _).
    exists p'. exact Hl.
  - intros [|w ws]; simpl.
    + repeat split; [constructor|discriminate].
    + destruct (first_run_fails w (boot w0) eq_refl Hfail) as (msg & Hc & Hi & Hp).
      destruct (run_all_disabled ws (run_script w (boot w0)) msg Hc) as (Hc' & Hi' & Hp').
      { rewrite Hp. apply chrome_no_panel. }
      repeat split; [exact Hp'|by rewrite Hi', Hi|].
      intros reg replay. rewrite Hc'. discriminate.
Qed.

(** ** The call of a panel *)

(** Open the panel of the selected task on a ready registry, up to the
    call of the handle. *)
Ltac enter_panel Hgo Hh :=
  unfold dispatch; simpl;
  unfold text_generation_panel, summarization_panel, sentiment_panel, ner_panel,
    grammar_panel, st_text_area, st_slider, st_button, with_spinner, subscript,
    invoke, emit, lift, raise;
  unfold mbind, script_bind, mret, script_ret; simpl;
  rewrite Hgo, Hh; simpl.

(** When the call raises, the run ends there and the page shows the
    exception under the widgets of the panel. *)
Lemma run_raises w p reg replay t h e :
  cached p = Some (Some reg, replay) ->
  dom reg = five_keys ->
  submits w t ->
  reg !! task_key t = Some h ->
  (be_call B h (panel_text w t) (panel_kwargs w t) (world p)).1 = inl e ->
  page (run_script w p) = chrome w replay ++ panel_form w t ++ [ExceptionBox e].
Proof.
  intros Hc Hdom [Hsel Hgo] Hh Hcall.
  unfold run_script. rewrite (app_ready w p reg replay Hc Hdom), Hsel.
  destruct t; simpl in Hh, Hgo, Hcall |- *; enter_panel Hgo Hh;
    (destruct (be_call B h _ _ (world p)) as [[e'|v] w']; simpl in Hcall |- *;
     [|discriminate]);
    injection Hcall as ->; rewrite <- !app_assoc; reflexivity.
Qed.

(** C4 (as amended). The dispatcher invokes the handle of the selected
    task once, with the text [T] the user typed and the parameters [P] the
    user set, both unchanged; the only other argument is the constant
    [num_return_sequences=1] of the Text Generation call. *)
Theorem dispatcher_passes_text_and_parameters w p reg t h T P :
  ready p reg ->
  submits w t ->
  reg !! task_key t = Some h ->
  supplies w t T P ->
  invoked (run_script w p) = invoked p ++ [Call B h T (P ++ fixed_kwargs t)].
Proof.
  intros Hr Hs Hh [HT HP].
  destruct (run_invokes w p reg t h Hr Hs Hh) as (-> & _).
  assert (panel_text w t = T) as ->.
  { unfold panel_text, text_value. by rewrite HT. }
  assert (panel_kwargs w t = P ++ fixed_kwargs t) as ->; [|done].
  destruct t; simpl in HP |- *.
  - destruct HP as (max_len & -> & Hs1 & Hb). simpl.
    unfold slider_value. simpl. rewrite Hs1.
    replace (_ <=? max_len) with true by lia.
    replace (max_len <=? _) with true by lia. reflexivity.
  - destruct HP as (max_len & min_len & -> & Hs1 & Hb1 & Hs2 & Hb2). simpl.
    assert (slider_value w "Max Summary Length" 20 200 60 = max_len) as ->.
    { unfold slider_value. simpl. rewrite Hs1.
      replace (_ <=? max_len) with true by lia.
      replace (max_len <=? _) with true by lia. reflexivity. }
    unfold slider_value, slider_bounds. rewrite Hs2.
    replace (_ <=? min_len) with true by lia.
    replace (min_len <=? _) with true by lia. reflexivity.
  - by subst P.
  - by subst P.
  - by subst P.
Qed.

(** C5. When the call of a panel raises on a ready registry, the run shows
    the exception under the panel and nothing else happens: the cache still
    holds the same registry, nothing is constructed, and in the next run
    the button of any task invokes the handle of that task. *)
Theorem invocation_failure_is_local w p reg t h e :
  ready p reg ->
  submits w t ->
  reg !! task_key t = Some h ->
  (be_call B h (panel_text w t) (panel_kwargs w t) (world p)).1 = inl e ->
  let q := run_script w p in
  (exists replay, page q = chrome w replay ++ panel_form w t ++ [ExceptionBox e])
  /\ cached q = cached p
  /\ constructed q = constructed p
  /\ ready q reg
  /\ forall w2 t2 h2,
       submits w2 t2 ->
       reg !! task_key t2 = Some h2 ->
       invoked (run_script w2 q)
       = invoked q ++ [Call B h2 (panel_text w2 t2) (panel_kwargs w2 t2)].
Proof.
  intros Hr Hs Hh Hcall q.
  destruct (run_invokes w p reg t h Hr Hs Hh) as (_ & Hc & Hco).
  assert (ready q reg) as Hq.
  { destruct Hr as (replay & Hr & Hdom). exists replay. unfold q. by rewrite Hc. }
  split; [|repeat split; try done].
  - destruct Hr as (replay & Hr & Hdom). exists replay.
    by apply (run_raises w p reg replay t h e).
  - intros w2 t2 h2 Hs2 Hh2. by apply (run_invokes w2 q reg t2 h2).
Qed.

(** C6 (as amended). The text of the text area is forwarded whether or not
    it is empty: with an empty text area the handle is invoked with the
    empty string. *)
Theorem empty_text_is_forwarded w p reg t h :
  ready p reg ->
  submits w t ->
  reg !! task_key t = Some h ->
  typed w (text_label t) = Some "" ->
  invoked (run_script w p) = invoked p ++ [Call B h "" (panel_kwargs w t)].
Proof.
  intros Hr Hs Hh HT.
  destruct (run_invokes w p reg t h Hr Hs Hh) as (-> & _).
  unfold panel_text, text_value. by rewrite HT.
Qed.

(** ** Formatting to four decimals *)

(** The integer chosen for [num / den] is a nearest one. *)
Lemma round_half_even_nearest num den :
  0 < den -> 2 * Z.abs (round_half_even num den * den - num) <= den.
Proof.
  intros Hden. unfold round_half_even.
  pose proof (Z.div_mod num den ltac:(lia)) as Hdm.
  pose proof (Z.mod_pos_bound num den Hden) as Hr.
  destruct (2 * (num mod den) <? den) eqn:E1; [nia|].
  destruct (den <? 2 * (num mod den)) eqn:E2; [nia|].
  destruct (Z.even (num / den)); nia.
Qed.

Lemma fraction_4_length r : String.length (fraction_4 r) = 4%nat.
Proof. reflexivity. Qed.

(** A float that is a number is printed with a point followed by four
    characters. *)
Lemma format_float_4f_places f :
  (exists s m e, Prim2SF f = S754_finite s m e) \/ (exists s, Prim2SF f = S754_zero s) ->
  exists whole fraction,
    format_float_4f f = whole +:+ "." +:+ fraction /\ String.length fraction = 4%nat.
Proof.
  unfold format_float_4f.
  intros [(s & m & e & ->)|(s & ->)].
  - exists (sign_prefix s +:+ decimal (scaled_4 m e / 10000)),
           (fraction_4 (scaled_4 m e mod 10000)).
    split; [|reflexivity]. unfold fixed_4. destruct s; simpl; reflexivity.
  - exists (sign_prefix s +:+ "0"), "0000". destruct s; split; reflexivity.
Qed.

Lemma eq_str_false v s : v <> PyStr s -> eq_str v s = false.
Proof.
  intros Hne. destruct v as [s'| | |]; simpl; try reflexivity.
  apply String.eqb_neq. congruence.
Qed.

(** ** The slider of the minimum length *)

Lemma slider_value_within w label lo hi v :
  (slider_bounds lo hi v).1 <= slider_value w label lo hi v <= (slider_bounds lo hi v).2.
Proof.
  unfold slider_value, slider_bounds. simpl.
  destruct (slid w label) as [u|]; [|lia].
  destruct (_ <=? u) eqn:E1; destruct (u <=? _) eqn:E2; simpl; lia.
Qed.

(** From 30 on, the slider of the minimum ranges over [10, M-10]. *)
Lemma min_length_bounds_wide M :
  30 <= M -> slider_bounds 10 (M - 10) 20 = (10, M - 10).
Proof. intros HM. unfold slider_bounds. f_equal; lia. Qed.

(** Below 30 the initial value 20 is above [M-10], and the slider ranges
    over [10, 20]. *)
Lemma min_length_bounds_narrow M :
  20 <= M < 30 -> slider_bounds 10 (M - 10) 20 = (10, 20).
Proof. intros HM. unfold slider_bounds. f_equal; lia. Qed.

(** From 30 on the minimum that reaches the summarizer is at least 10
    below the maximum. *)
Lemma min_length_below_max_length w :
  let max_len := slider_value w "Max Summary Length" 20 200 60 in
  let min_len := slider_value w "Min Summary Length" 10 (max_len - 10) 20 in
  30 <= max_len -> 10 <= min_len <= max_len - 10.
Proof.
  intros max_len min_len HM.
  pose proof (slider_value_within w "Min Summary Length" 10 (max_len - 10) 20) as Hb.
  rewrite (min_length_bounds_wide max_len HM) in Hb. exact Hb.
Qed.

(** At 20, with the slider of the minimum left alone, the two lengths that
    reach the summarizer are equal, whatever the backend. *)
Lemma min_length_equals_max_length_at_20 w :
  slid w "Max Summary Length" = Some 20 ->
  slid w "Min Summary Length" = None ->
  panel_kwargs w Summarization = [("max_length", 20); ("min_length", 20)].
Proof.
  intros Hmax Hmin. unfold panel_kwargs, slider_value. simpl.
  rewrite Hmax, Hmin. reflexivity.
Qed.

(** ** What the panels show *)

Lemma sentiment_renders w p reg replay h d rest label score ex :
  cached p = Some (Some reg, replay) ->
  dom reg = five_keys ->
  submits w SentimentAnalysis ->
  reg !! "sentiment" = Some h ->
  be_call B h (panel_text w SentimentAnalysis) [] (world p)
    = (inr (PyList (PyDict d :: rest)), ex) ->
  dict_get d "label" = Some label ->
  dict_get d "score" = Some (PyFloat score) ->
  page (run_script w p) =
    chrome w replay ++ panel_form w SentimentAnalysis
    ++ [Subheader "Result:";
        if eq_str label "POSITIVE"
        then Success ("POSITIVE (Confidence: " +:+ format_float_4f score +:+ ")")
        else ErrorBox ("NEGATIVE (Confidence: " +:+ format_float_4f score +:+ ")")].
Proof.
  intros Hc Hdom [Hsel Hgo] Hh Hcall Hl Hs.
  unfold run_script. rewrite (app_ready w p reg replay Hc Hdom), Hsel.
  simpl in Hgo, Hcall |- *. unfold panel_text in Hcall. simpl in Hcall.
  enter_panel Hgo Hh. rewrite Hcall. simpl. rewrite Hl. simpl.
  destruct (eq_str label "POSITIVE"); rewrite Hs; simpl;
    rewrite <- !app_assoc; reflexivity.
Qed.

Lemma format_0_9998 : format_float_4f 0.9998 = "0.9998".
Proof. vm_compute. reflexivity. Qed.

(** C7. On a ready registry, with "The food was amazing!" in the text area
    of the Sentiment panel and a handle that answers POSITIVE with score
    0.9998, pressing the button shows a success box whose confidence is
    the score with four decimals, "0.9998". *)
Theorem sentiment_positive_scenario w p reg h ex :
  ready p reg ->
  submits w SentimentAnalysis ->
  reg !! "sentiment" = Some h ->
  panel_text w SentimentAnalysis = "The food was amazing!" ->
  be_call B h "The food was amazing!" [] (world p)
    = (inr (PyList [PyDict [("label", PyStr "POSITIVE"); ("score", PyFloat 0.9998)]]), ex) ->
  exists replay,
    page (run_script w p) =
      chrome w replay ++ panel_form w SentimentAnalysis
      ++ [Subheader "Result:"; Success "POSITIVE (Confidence: 0.9998)"].
Proof.
  intros (replay & Hc & Hdom) Hs Hh HT Hcall. exists replay.
  rewrite <- HT in Hcall.
  rewrite (sentiment_renders w p reg replay h _ _ (PyStr "POSITIVE") 0.9998 ex
             Hc Hdom Hs Hh Hcall eq_refl eq_refl).
  rewrite format_0_9998. reflexivity.
Qed.

(** C10. Whatever the label of the result, if it is not the string
    POSITIVE the panel shows an error box that reads NEGATIVE with the score
    of the result in four decimals. *)
Theorem sentiment_other_labels_negative w p reg h d rest label score ex :
  ready p reg ->
  submits w SentimentAnalysis ->
  reg !! "sentiment" = Some h ->
  be_call B h (panel_text w SentimentAnalysis) [] (world p)
    = (inr (PyList (PyDict d :: rest)), ex) ->
  dict_get d "label" = Some label ->
  dict_get d "score" = Some (PyFloat score) ->
  label <> PyStr "POSITIVE" ->
  exists replay,
    page (run_script w p) =
      chrome w replay ++ panel_form w SentimentAnalysis
      ++ [Subheader "Result:";
          ErrorBox ("NEGATIVE (Confidence: " +:+ format_float_4f score +:+ ")")].
Proof.
  intros (replay & Hc & Hdom) Hs Hh Hcall Hl Hsc Hne. exists replay.
  rewrite (sentiment_renders w p reg replay h d rest label score ex
             Hc Hdom Hs Hh Hcall Hl Hsc).
  by rewrite (eq_str_false label "POSITIVE" Hne).
Qed.

(** The comprehension turns well-formed entity records into their rows. *)
Lemma entity_rows_table recs ents :
  Forall2 entity_record recs ents ->
  entity_rows ents = inr (map table_row recs).
Proof.
  induction 1 as [|[[word group] score] ent recs ents Hent _ IH]; simpl.
  - reflexivity.
  - destruct Hent as (d & -> & Hw & Hg & Hs).
    unfold entity_row. simpl. rewrite Hw, Hg, Hs. simpl. rewrite IH. reflexivity.
Qed.

(** C8. When the NER handle returns a list of N entity records, the panel
    shows a table with N rows, one per record and in the same order; the
    row of a record has the columns Entity, Label and Score in that order,
    holding the word, the entity group and the score in four decimals. *)
Theorem ner_table w p reg h recs ents ex :
  ready p reg ->
  submits w NamedEntityRecognition ->
  reg !! "ner" = Some h ->
  be_call B h (panel_text w NamedEntityRecognition) [] (world p)
    = (inr (PyList ents), ex) ->
  Forall2 entity_record recs ents ->
  (exists replay,
     page (run_script w p) =
       chrome w replay ++ panel_form w NamedEntityRecognition
       ++ [Success "Entities Identified:"; Dataframe (PyList (map table_row recs))])
  /\ length (map table_row recs) = length ents.
Proof.
  intros (replay & Hc & Hdom) [Hsel Hgo] Hh Hcall Hents. split.
  - exists replay.
    unfold run_script. rewrite (app_ready w p reg replay Hc Hdom), Hsel.
    simpl in Hgo, Hcall |- *. unfold panel_text in Hcall. simpl in Hcall.
    enter_panel Hgo Hh. rewrite Hcall. simpl.
    rewrite (entity_rows_table recs ents Hents). simpl.
    rewrite <- !app_assoc. reflexivity.
  - rewrite length_map. by apply Forall2_length in Hents.
Qed.

(** C9 (as amended). When the grammar handle returns the corrected text
    [X], the panel passes to st.markdown the string "**Original:** "
    followed by the text of the text area, unchanged, and then the string
    "**Corrected:** " followed by [X]; the correction step does not touch
    the original, which the text area still holds.  What the page shows of
    each is its Markdown source as Streamlit cleans and renders it, not a
    verbatim copy. *)
Theorem grammar_shows_original_and_corrected w p reg h d rest X ex :
  ready p reg ->
  submits w GrammarCorrection ->
  reg !! "grammar" = Some h ->
  be_call B h (panel_text w GrammarCorrection) [] (world p)
    = (inr (PyList (PyDict d :: rest)), ex) ->
  dict_get d "generated_text" = Some (PyStr X) ->
  exists replay,
    page (run_script w p) =
      chrome w replay
      ++ [Header "✍ Grammar Correction";
          TextArea "Enter incorrect text:" (panel_text w GrammarCorrection) 120;
          Button "Correct";
          Success "Correction Complete!";
          Markdown ("**Original:** " +:+ panel_text w GrammarCorrection);
          Markdown ("**Corrected:** " +:+ X)].
Proof.
  intros (replay & Hc & Hdom) [Hsel Hgo] Hh Hcall HX. exists replay.
  unfold run_script. rewrite (app_ready w p reg replay Hc Hdom), Hsel.
  simpl in Hgo, Hcall |- *. unfold panel_text in Hcall |- *. simpl in Hcall |- *.
  enter_panel Hgo Hh. rewrite Hcall. simpl. rewrite HX. simpl.
  rewrite <- !app_assoc. reflexivity.
Qed.

End Properties.

(* ===================================================================== *)
(** * The properties on the scripted backends *)
(* ===================================================================== *)

Lemma scripted_ready reply :
  ready (visited (scripted nothing_broken reply) tt) demo_registry.
Proof. exists []. split; vm_compute; reflexivity. Qed.

Lemma load_pipelines_once_witness :
  exists reg p1 pn,
    load_pipelines (boot (B:=demo) tt) = (Ret (Some reg), p1)
    /\ reg !! "text_gen" = Some "text-generation"
    /\ reg !! "summarizer" = Some "summarization"
    /\ reg !! "sentiment" = Some "sentiment-analysis"
    /\ reg !! "ner" = Some "ner"
    /\ reg !! "grammar" = Some "text2text-generation"
    /\ dom reg = five_keys
    /\ load_repeatedly 3 p1 = (replicate 3 (Ret (Some reg)), pn)
    /\ constructed p1 = five_specs
    /\ constructed pn = five_specs
    /\ world p1 = tt
    /\ world pn = tt.
Proof.
  apply (proj2 (load_pipelines_once (B:=demo) tt 3)).
  repeat (eapply give_cons; [reflexivity|]). apply give_nil.
Defined.

Lemma registry_failure_disables_witness :
  construction_fails five_specs (tt : ext demo_broken)
  /\ (exists p1, load_pipelines (boot (B:=demo_broken) tt) = (Ret None, p1))
  /\ forall ws,
       Forall (fun el => is_panel_widget el = false)
         (page (run_all ws (boot (B:=demo_broken) tt)))
       /\ invoked (run_all ws (boot (B:=demo_broken) tt)) = []
       /\ (forall reg replay,
             cached (run_all ws (boot (B:=demo_broken) tt)) <> Some (Some reg, replay)).
Proof.
  assert (construction_fails five_specs (tt : ext demo_broken)) as Hfail.
  { do 3 (eapply fails_later; [reflexivity|]). eapply fails_here. reflexivity. }
  split; [exact Hfail|].
  exact (registry_failure_disables (B:=demo_broken) tt Hfail).
Defined.

(** C3 (the failing input). With the maximum at 20, its lowest position,
    and the slider of the minimum left alone, the slider of the minimum
    ranges over [10, 20] and stands at 20, and pressing the button calls
    the summarizer with a minimum equal to the maximum. *)
Theorem min_length_reaches_max_length :
  let w := sliding "Max Summary Length" 20 (press 1 "Summarize") in
  let q := run_script w (visited demo tt) in
  page q !! 8%nat = Some (Slider "Max Summary Length" 20 200 20)
  /\ page q !! 9%nat = Some (Slider "Min Summary Length" 10 20 20)
  /\ invoked q =
       [Call demo "summarization" summarization_default
          [("max_length", 20); ("min_length", 20)]].
Proof. repeat split; vm_compute; reflexivity. Qed.

(** C4 (counterexample). The user types a prompt and sets the maximum
    length to 100; the call of the Text Generation panel is not the call
    with that text and that parameter alone. *)
Lemma text_generation_call_has_third_argument :
  let w := typing "Enter your prompt:" "Once upon a time"
             (sliding "Max Output Length" 100 (press 0 "Generate")) in
  supplies w TextGeneration "Once upon a time" [("max_length", 100)]
  /\ submits w TextGeneration
  /\ invoked (run_script w (visited demo tt))
     <> invoked (visited demo tt)
        ++ [Call demo "text-generation" "Once upon a time" [("max_length", 100)]].
Proof.
  split; [|split].
  - split; [reflexivity|]. exists 100. split; [reflexivity|split; [reflexivity|lia]].
  - split; reflexivity.
  - vm_compute. discriminate.
Qed.

Lemma dispatcher_passes_text_and_parameters_witness :
  let w := typing "Enter long text:" "A long story."
             (sliding "Max Summary Length" 100
                (sliding "Min Summary Length" 30 (press 1 "Summarize"))) in
  invoked (run_script w (visited demo tt))
  = invoked (visited demo tt)
    ++ [Call demo "summarization" "A long story."
          ([("max_length", 100); ("min_length", 30)] ++ fixed_kwargs Summarization)].
Proof.
  intros w.
  apply (dispatcher_passes_text_and_parameters (B:=demo) w (visited demo tt)
           demo_registry Summarization).
  - apply scripted_ready.
  - split; reflexivity.
  - reflexivity.
  - split; [reflexivity|]. exists 100, 30.
    split; [reflexivity|]. split; [reflexivity|]. split; [lia|].
    split; [reflexivity|lia].
Defined.

Lemma invocation_failure_is_local_witness :
  let w := press 2 "Analyze" in
  let q := run_script w (visited demo_down tt) in
  (exists replay,
     page q = chrome w replay ++ panel_form w SentimentAnalysis
              ++ [ExceptionBox (Exn "RuntimeError" "CUDA out of memory")])
  /\ cached q = cached (visited demo_down tt)
  /\ constructed q = constructed (visited demo_down tt)
  /\ ready q demo_registry
  /\ forall w2 t2 h2,
       submits w2 t2 ->
       demo_registry !! task_key t2 = Some h2 ->
       invoked (run_script w2 q)
       = invoked q ++ [Call demo_down h2 (panel_text w2 t2) (panel_kwargs w2 t2)].
Proof.
  intros w.
  apply (invocation_failure_is_local (B:=demo_down) w (visited demo_down tt)
           demo_registry SentimentAnalysis "sentiment-analysis").
  - apply scripted_ready.
  - split; reflexivity.
  - reflexivity.
  - reflexivity.
Defined.

(** C6 (counterexample). The text area of the Sentiment panel is emptied
    and the button pressed: the handle is invoked with the empty string. *)
Lemma sentiment_empty_text_reaches_handle :
  let w := typing "Enter text:" "" (press 2 "Analyze") in
  submits w SentimentAnalysis
  /\ exists c, invoked (run_script w (visited demo tt)) = [c] /\ text c = "".
Proof.
  split; [split; reflexivity|].
  exists (Call demo "sentiment-analysis" "" []). split; vm_compute; reflexivity.
Qed.

Lemma empty_text_is_forwarded_witness :
  let w := typing "Enter incorrect text:" "" (press 4 "Correct") in
  invoked (run_script w (visited demo tt))
  = invoked (visited demo tt) ++ [Call demo "text2text-generation" "" (panel_kwargs w GrammarCorrection)].
Proof.
  intros w.
  apply (empty_text_is_forwarded (B:=demo) w (visited demo tt) demo_registry
           GrammarCorrection).
  - apply scripted_ready.
  - split; reflexivity.
  - reflexivity.
  - reflexivity.
Defined.

Lemma sentiment_positive_scenario_witness :
  let w := press 2 "Analyze" in
  exists replay,
    page (run_script w (visited demo tt)) =
      chrome w replay ++ panel_form w SentimentAnalysis
      ++ [Subheader "Result:"; Success "POSITIVE (Confidence: 0.9998)"].
Proof.
  intros w.
  apply (sentiment_positive_scenario (B:=demo) w (visited demo tt) demo_registry
           "sentiment-analysis" tt).
  - apply scripted_ready.
  - split; reflexivity.
  - reflexivity.
  - reflexivity.
  - reflexivity.
Defined.

Lemma sentiment_other_labels_negative_witness :
  let w := press 2 "Analyze" in
  exists replay,
    page (run_script w (visited demo_neutral tt)) =
      chrome w replay ++ panel_form w SentimentAnalysis
      ++ [Subheader "Result:"; ErrorBox "NEGATIVE (Confidence: 0.5000)"].
Proof.
  intros w.
  apply (sentiment_other_labels_negative (B:=demo_neutral) w (visited demo_neutral tt)
           demo_registry "sentiment-analysis"
           [("label", PyStr "NEUTRAL"); ("score", PyFloat 0.5)] []
           (PyStr "NEUTRAL") 0.5 tt).
  - apply scripted_ready.
  - split; reflexivity.
  - reflexivity.
  - reflexivity.
  - reflexivity.
  - reflexivity.
  - discriminate.
Defined.

Lemma ner_table_witness :
  let w := press 3 "Identify Entities" in
  (exists replay,
     page (run_script w (visited demo tt)) =
       chrome w replay ++ panel_form w NamedEntityRecognition
       ++ [Success "Entities Identified:";
           Dataframe (PyList
             [PyDict [("Entity", PyStr "Elon Musk"); ("Label", PyStr "PER");
                      ("Score", PyStr "0.9900")];
              PyDict [("Entity", PyStr "SpaceX"); ("Label", PyStr "ORG");
                      ("Score", PyStr "0.9500")];
              PyDict [("Entity", PyStr "California"); ("Label", PyStr "LOC");
                      ("Score", PyStr "0.9700")]])])
  /\ length
       (map table_row
          [(PyStr "Elon Musk", PyStr "PER", 0.99%float);
           (PyStr "SpaceX", PyStr "ORG", 0.95%float);
           (PyStr "California", PyStr "LOC", 0.97%float)]) = 3%nat.
Proof.
  intros w.
  pose (recs := [(PyStr "Elon Musk", PyStr "PER", 0.99%float);
                 (PyStr "SpaceX", PyStr "ORG", 0.95%float);
                 (PyStr "California", PyStr "LOC", 0.97%float)]).
  pose (ents :=
    [PyDict [("entity_group", PyStr "PER"); ("score", PyFloat 0.99); ("word", PyStr "Elon Musk")];
     PyDict [("entity_group", PyStr "ORG"); ("score", PyFloat 0.95); ("word", PyStr "SpaceX")];
     PyDict [("entity_group", PyStr "LOC"); ("score", PyFloat 0.97); ("word", PyStr "California")]]).
  assert (Forall2 entity_record recs ents) as Hents.
  { repeat constructor; eexists; (split; [reflexivity|repeat split; reflexivity]). }
  exact (ner_table (B:=demo) w (visited demo tt) demo_registry "ner" recs ents tt
           (scripted_ready canned_reply) (conj eq_refl eq_refl) eq_refl eq_refl Hents).
Defined.

(** C9 (counterexample). The text area holds a sentence that ends with a
    space.  The panel passes it on unchanged, but the Markdown source that
    reaches the page has lost the space: the original does not occur in
    what is shown. *)
Lemma grammar_original_loses_trailing_space :
  let T := "She go to school every days " in
  let w := typing "Enter incorrect text:" T (press 4 "Correct") in
  page (run_script w (visited demo tt)) !! 10%nat
    = Some (Markdown ("**Original:** " +:+ T))
  /\ clean_text ("**Original:** " +:+ T) = "**Original:** She go to school every days"
  /\ occurs_in (list_ascii_of_string T)
       (list_ascii_of_string (clean_text ("**Original:** " +:+ T))) = false.
Proof. repeat split; vm_compute; reflexivity. Qed.

Lemma grammar_shows_original_and_corrected_witness :
  let w := typing "Enter incorrect text:" "She go to school every days..."
             (press 4 "Correct") in
  exists replay,
    page (run_script w (visited demo tt)) =
      chrome w replay
      ++ [Header "✍ Grammar Correction";
          TextArea "Enter incorrect text:" "She go to school every days..." 120;
          Button "Correct";
          Success "Correction Complete!";
          Markdown "**Original:** She go to school every days...";
          Markdown "**Corrected:** She goes to school every day."].
Proof.
  intros w.
  apply (grammar_shows_original_and_corrected (B:=demo) w (visited demo tt)
           demo_registry "text2text-generation"
           [("generated_text", PyStr "She goes to school every day.")] []
           "She goes to school every day." tt).
  - apply scripted_ready.
  - split; reflexivity.
  - reflexivity.
  - reflexivity.
  - reflexivity.
Defined.

(* ===================================================================== *)
(** * Further properties of the script *)
(* ===================================================================== *)

(** Unfold the commands of a panel down to the state they act on. *)
Ltac open_panel :=
  unfold text_generation_panel, summarization_panel, sentiment_panel, ner_panel,
    grammar_panel, st_text_area, st_slider, st_button, with_spinner, subscript,
    invoke, emit, lift, raise;
  unfold mbind, script_bind, mret, script_ret; simpl.

Section Runs.
Context {B : backend}.

Implicit Types (p q : @proc B) (reg : registry B) (w : widgets) (t : task).

(** ** What a run leaves alone *)

Lemma dispatch_framed task w pipes p :
  framed p (dispatch task w pipes p).2.
Proof.
  unfold dispatch.
  repeat match goal with
         | |- context [if String.eqb task ?s then _ else _] =>
             destruct (String.eqb task s)
         end;
    [open_panel..|unfold framed; simpl; tauto];
    (destruct (pressed w _); simpl; [|unfold framed; simpl; tauto]);
    (destruct pipes as [m|]; simpl; [|unfold framed; simpl; tauto]);
    (destruct (m !! _) as [h|]; simpl; [|unfold framed; simpl; tauto]);
    (destruct (be_call B h _ _ (world p)) as [[e|v] ex]; simpl;
     [unfold framed; simpl; eauto|]);
    run_to_end; unfold framed; simpl; eauto.
Qed.

(** The page once the loader has returned [v] in state [q]: the run stops
    if [v] is no registry and opens the selected panel otherwise. *)
Lemma app_after_load w p v q :
  load_pipelines
    (Proc B (world p) (cached p) (constructed p) (invoked p)
       [PageConfig "Hugging Face Transformer Demos" "wide" "expanded"]) = (Ret v, q) ->
  app w (Proc B (world p) (cached p) (constructed p) (invoked p) []) =
    (if falsy v then st_stop
     else dispatch (selectbox_value w "*Select an NLP Task*" task_options) w v)
      (Proc B (world q) (cached q) (constructed q) (invoked q)
         (page q ++
          [Title "🧠 NLP Tasks with Hugging Face Transformers";
           Markdown "Perform Text Generation, Summarization, Sentiment Analysis, NER and Grammar Correction.";
           SidebarSelectbox "*Select an NLP Task*" task_options
             (selectbox_value w "*Select an NLP Task*" task_options);
           SidebarMarkdown "---";
           SidebarInfo "✔ Models load only once using @st.cache_resource"])).
Proof.
  intros Hload. unfold app, st_sidebar_selectbox, emit, st_stop.
  unfold mbind, script_bind, mret, script_ret.
  change (page (Proc B (world p) (cached p) (constructed p) (invoked p) []) ++
          [PageConfig "Hugging Face Transformer Demos" "wide" "expanded"])
    with [PageConfig "Hugging Face Transformer Demos" "wide" "expanded"].
  cbn [world cached constructed invoked].
  rewrite Hload. cbn [world cached constructed invoked page].
  rewrite <- !app_assoc.
  destruct (falsy v); reflexivity.
Qed.

(** Whatever the widgets, a run never touches a cache entry that exists,
    constructs nothing then, and calls a handle at most once. *)
Lemma run_framed w p v replay :
  cached p = Some (v, replay) -> framed p (run_script w p).
Proof.
  intros Hc. unfold run_script.
  rewrite (app_after_load w p v _
             (load_pipelines_hit
                (Proc B (world p) (cached p) (constructed p) (invoked p)
                   [PageConfig "Hugging Face Transformer Demos" "wide" "expanded"])
                v replay Hc)).
  cbn [world cached constructed invoked page].
  destruct (falsy v).
  - unfold st_stop, framed. simpl. tauto.
  - pose proof (dispatch_framed (selectbox_value w "*Select an NLP Task*" task_options) w v
        (Proc B (world p) (cached p) (constructed p) (invoked p)
           (([PageConfig "Hugging Face Transformer Demos" "wide" "expanded"] ++ replay) ++
            [Title "🧠 NLP Tasks with Hugging Face Transformers";
             Markdown "Perform Text Generation, Summarization, Sentiment Analysis, NER and Grammar Correction.";
             SidebarSelectbox "*Select an NLP Task*" task_options
               (selectbox_value w "*Select an NLP Task*" task_options);
             SidebarMarkdown "---";
             SidebarInfo "✔ Models load only once using @st.cache_resource"])))
      as Hf.
    destruct (dispatch _ w v _) as [[a|e|] q]; exact Hf.
Qed.

(** The first run of a process fills the cache: with [None], or with a
    registry that has the five keys, after a prefix of the constructions. *)
Lemma first_run_fills_cache w p :
  cached p = None ->
  exists v k replay,
    cached (run_script w p) = Some (v, replay)
    /\ constructed (run_script w p) = constructed p ++ take k five_specs
    /\ (forall reg, v = Some reg -> dom reg = five_keys /\ k = 5%nat)
    /\ (invoked (run_script w p) = invoked p
        \/ exists c, invoked (run_script w p) = invoked p ++ [c]).
Proof.
  intros Hc.
  destruct (load_pipelines_miss
              (Proc B (world p) (cached p) (constructed p) (invoked p)
                 [PageConfig "Hugging Face Transformer Demos" "wide" "expanded"]) Hc)
    as (v & k & replay & Hload & Hreg).
  exists v, k, replay. unfold run_script.
  rewrite (app_after_load w p v _ Hload).
  cbn [world cached constructed invoked page].
  assert (forall reg, v = Some reg -> dom reg = five_keys /\ k = 5%nat) as Hreg'.
  { intros reg Hv. destruct (Hreg reg Hv) as (? & ? & ?). done. }
  destruct (falsy v).
  - unfold st_stop. simpl.
    refine (conj eq_refl (conj eq_refl (conj Hreg' _))). tauto.
  - match goal with
    | |- context [dispatch ?task w v ?s] =>
        pose proof (dispatch_framed task w v s) as (Hca & Hco & Hi);
        destruct (dispatch task w v s) as [[a|e|] q]
    end; simpl in *; rewrite Hca, Hco;
      refine (conj eq_refl (conj eq_refl (conj Hreg' _)));
      (destruct Hi as [[-> _]|[c ->]]; [tauto|eauto]).
Qed.

(** X1. A run of the script, whatever the state of the process and of the
    widgets, calls a handle at most once. *)
Theorem run_calls_at_most_once w p :
  invoked (run_script w p) = invoked p
  \/ exists c, invoked (run_script w p) = invoked p ++ [c].
Proof.
  destruct (cached p) as [[v replay]|] eqn:Hc.
  - destruct (run_framed w p v replay Hc) as (_ & _ & [[Hi _]|[c Hi]]); eauto.
  - destruct (first_run_fills_cache w p Hc) as (v & k & replay & _ & _ & _ & Hi). exact Hi.
Qed.

Lemma run_all_keeps ws p v replay :
  cached p = Some (v, replay) ->
  cached (run_all ws p) = cached p /\ constructed (run_all ws p) = constructed p.
Proof.
  revert p. induction ws as [|w ws IH]; intros p Hc; simpl; [done|].
  destruct (run_framed w p v replay Hc) as (Hca & Hco & _).
  destruct (IH (run_script w p)) as (-> & ->); [by rewrite Hca|]. done.
Qed.

(** X2. Once the cache holds an entry, no later run changes it or
    constructs a pipeline again, whatever the user does and whatever the
    handles answer or raise; the runs together call at most one handle
    each. *)
Theorem runs_keep_cache ws p v replay :
  cached p = Some (v, replay) ->
  cached (run_all ws p) = cached p
  /\ constructed (run_all ws p) = constructed p
  /\ (length (invoked (run_all ws p)) <= length (invoked p) + length ws)%nat.
Proof.
  intros Hc. destruct (run_all_keeps ws p v replay Hc) as (Hca & Hco).
  split; [exact Hca|split; [exact Hco|]]. clear Hca Hco.
  revert p Hc. induction ws as [|w ws IH]; intros p Hc; simpl; [lia|].
  destruct (run_framed w p v replay Hc) as (Hca & _ & Hi).
  specialize (IH (run_script w p) ltac:(by rewrite Hca)).
  destruct Hi as [[Hi _]|[c Hi]]; rewrite Hi in IH;
    [|rewrite length_app in IH; simpl in IH]; lia.
Qed.

(** X3. In every state a process can reach, the cache is empty (before the
    first run), holds [None] after a prefix of the five constructions, or
    holds a registry with exactly the five keys after the five
    constructions in order; no construction ever ran twice. *)
Theorem reachable_cache (w0 : ext B) ws :
  let q := run_all ws (boot w0) in
  ((ws = [] /\ cached q = None /\ constructed q = [])
   \/ (exists replay k, cached q = Some (None, replay) /\ constructed q = take k five_specs)
   \/ (exists reg replay,
         cached q = Some (Some reg, replay) /\ dom reg = five_keys
         /\ constructed q = five_specs))
  /\ NoDup (constructed q).
Proof.
  destruct ws as [|w ws]; simpl.
  - split; [left; done|constructor].
  - destruct (first_run_fills_cache w (boot w0) eq_refl) as (v & k & replay & Hc & Hco & Hreg & _).
    destruct (run_all_keeps ws (run_script w (boot w0)) v replay Hc) as (-> & ->).
    rewrite Hc, Hco. simpl. split.
    + right. destruct v as [reg|].
      * right. destruct (Hreg reg eq_refl) as [Hdom ->]. by exists reg, replay.
      * left. by exists replay, k.
    + eapply sublist_NoDup; [apply five_specs_nodup|apply sublist_take].
Qed.

(** ** The first load *)

Lemma load_pipelines_fails_at p k e (w' : ext B) :
  cached p = None ->
  fails_at k e five_specs (world p) w' ->
  load_pipelines p =
    (Ret None,
     Proc B w' (Some (None, [ErrorBox (load_error e)]))
       (constructed p ++ take (S k) five_specs) (invoked p)
       (page p ++ [ErrorBox (load_error e)])).
Proof.
  intros Hc Hfail. destruct p as [w0 c cs iv pg]. simpl in *. subst c.
  unfold load_pipelines, cache_resource, load_pipelines_body, try_except,
    with_spinner, pipelines_dict, pipeline, emit, five_specs in *.
  unfold mbind, script_bind, mret, script_ret. simpl.
  follow_chain; rewrite drop_app_length, <- ?app_assoc; reflexivity.
Qed.

(** X4. When the five constructions succeed, the first call of the loader
    returns a registry that binds each key to the handle of its own
    construction (text_gen to the first, summarizer to the second, and so
    on), stores it, and puts nothing on the page. *)
Theorem successful_load_binds_keys (w0 : ext B) h1 h2 h3 h4 h5 (w5 : ext B) :
  constructions_give five_specs w0 [h1; h2; h3; h4; h5] w5 ->
  exists reg,
    load_pipelines (boot w0) =
      (Ret (Some reg), Proc B w5 (Some (Some reg, [])) five_specs [] [])
    /\ reg !! "text_gen" = Some h1
    /\ reg !! "summarizer" = Some h2
    /\ reg !! "sentiment" = Some h3
    /\ reg !! "ner" = Some h4
    /\ reg !! "grammar" = Some h5
    /\ dom reg = five_keys.
Proof. exact (load_pipelines_gives (boot w0) h1 h2 h3 h4 h5 w5 eq_refl). Qed.

(** X5. When the construction at position [k] is the first to raise, the
    loader attempts the constructions up to that one and no other, returns
    [None], stores it, and shows one error box with the message of the
    exception. *)
Theorem failed_load_stops_at_failure (w0 : ext B) k e (w' : ext B) :
  fails_at k e five_specs w0 w' ->
  load_pipelines (boot w0) =
    (Ret None,
     Proc B w' (Some (None, [ErrorBox (load_error e)])) (take (S k) five_specs) []
       [ErrorBox (load_error e)]).
Proof. exact (load_pipelines_fails_at (boot w0) k e w' eq_refl). Qed.

Lemma run_all_disabled_state ws p replay :
  cached p = Some (None, replay) ->
  world (run_all ws p) = world p
  /\ cached (run_all ws p) = cached p
  /\ constructed (run_all ws p) = constructed p
  /\ invoked (run_all ws p) = invoked p.
Proof.
  revert p. induction ws as [|w ws IH]; intros p Hc; simpl; [done|].
  destruct (IH (run_script w p)) as (Hw & Hca & Hco & Hi).
  { rewrite (run_disabled w p replay Hc). exact Hc. }
  rewrite Hw, Hca, Hco, Hi, (run_disabled w p replay Hc). done.
Qed.

Lemma first_run_after_failure w (w0 : ext B) k e (w' : ext B) :
  fails_at k e five_specs w0 w' ->
  run_script w (boot w0) =
    Proc B w' (Some (None, [ErrorBox (load_error e)])) (take (S k) five_specs) []
      (chrome w [ErrorBox (load_error e)]).
Proof.
  intros Hfail. unfold run_script.
  rewrite (app_after_load w (boot w0) None _
             (load_pipelines_fails_at
                (Proc B w0 None [] []
                   [PageConfig "Hugging Face Transformer Demos" "wide" "expanded"])
                k e w' eq_refl Hfail)).
  reflexivity.
Qed.

(** X6. After a failed load every run of the process, the first one
    included, shows the page down to the sidebar with the same error box
    and stops; the loader is not retried, and the world outside stays as
    the failed construction left it. *)
Theorem failure_shown_on_every_run (w0 : ext B) k e (w' : ext B) ws w :
  fails_at k e five_specs w0 w' ->
  let q := run_all (ws ++ [w]) (boot w0) in
  page q = chrome w [ErrorBox (load_error e)]
  /\ world q = w'
  /\ constructed q = take (S k) five_specs
  /\ invoked q = [].
Proof.
  intros Hfail q. unfold q, run_all. rewrite foldl_app. simpl.
  fold (run_all ws (boot w0)).
  destruct ws as [|w1 ws].
  - simpl. rewrite (first_run_after_failure w w0 k e w' Hfail). done.
  - simpl. fold (run_all ws (run_script w1 (boot w0))).
    pose proof (first_run_after_failure w1 w0 k e w' Hfail) as H1.
    destruct (run_all_disabled_state ws (run_script w1 (boot w0)) [ErrorBox (load_error e)])
      as (Hw & Hca & Hco & Hi); [by rewrite H1|].
    rewrite (run_disabled w _ [ErrorBox (load_error e)]) by (by rewrite Hca, H1).
    simpl. rewrite Hw, Hco, Hi, H1. done.
Qed.

(** ** The panels *)

(** Open the panel of the selected task on a ready registry, down to the
    call of its handle. *)
Ltac press_button Hgo Hh :=
  unfold dispatch; simpl; open_panel; rewrite Hgo, Hh; simpl.

(** The selectbox always shows one of the five tasks. *)
Lemma selectbox_shows_a_task w :
  exists t, selectbox_value w "*Select an NLP Task*" task_options = task_option t.
Proof.
  unfold selectbox_value. simpl.
  destruct (picked w "*Select an NLP Task*") as [i|]; simpl.
  - do 5 (destruct i as [|i]; simpl;
          [first [by exists TextGeneration | by exists Summarization
                 | by exists SentimentAnalysis | by exists NamedEntityRecognition
                 | by exists GrammarCorrection]|]).
    by exists TextGeneration.
  - by exists TextGeneration.
Qed.

(** X7. On a ready registry, a run in which no button is pressed shows the
    widgets of exactly one panel, that of the task the selectbox shows,
    calls no handle and leaves the world outside alone. *)
Theorem idle_run_shows_one_panel w p reg :
  ready p reg ->
  (forall l, pressed w l = false) ->
  exists t replay,
    selectbox_value w "*Select an NLP Task*" task_options = task_option t
    /\ page (run_script w p) = chrome w replay ++ panel_form w t
    /\ invoked (run_script w p) = invoked p
    /\ world (run_script w p) = world p.
Proof.
  intros (replay & Hc & Hdom) Hidle.
  destruct (selectbox_shows_a_task w) as [t Hsel].
  exists t, replay. split; [exact Hsel|].
  unfold run_script. rewrite (app_ready w p reg replay Hc Hdom), Hsel.
  destruct t; unfold dispatch; simpl; open_panel; rewrite Hidle; simpl;
    rewrite <- !app_assoc; done.
Qed.

(** X8. When the text generation handle answers with a list whose first
    record has the field [generated_text], the panel shows the banner
    "Done!" and then that field as a code block in the language "text";
    further records of the answer are not shown. *)
Theorem text_generation_shows_first_text w p reg h d rest generated (ex : ext B) :
  ready p reg ->
  submits w TextGeneration ->
  reg !! "text_gen" = Some h ->
  be_call B h (panel_text w TextGeneration) (panel_kwargs w TextGeneration) (world p)
    = (inr (PyList (PyDict d :: rest)), ex) ->
  dict_get d "generated_text" = Some generated ->
  exists replay,
    page (run_script w p) =
      chrome w replay ++ panel_form w TextGeneration
      ++ [Success "Done!"; Code generated "text"].
Proof.
  intros (replay & Hc & Hdom) [Hsel Hgo] Hh Hcall Hg. exists replay.
  unfold run_script. rewrite (app_ready w p reg replay Hc Hdom), Hsel.
  simpl in Hgo, Hcall |- *. unfold panel_text in Hcall. simpl in Hcall.
  press_button Hgo Hh. rewrite Hcall. simpl. rewrite Hg. simpl.
  rewrite <- !app_assoc. reflexivity.
Qed.

(** X9. When the summarizer answers with a list whose first record has the
    field [summary_text], the panel shows the banner "Summary Ready!" and
    then that field. *)
Theorem summarization_shows_first_summary w p reg h d rest summary (ex : ext B) :
  ready p reg ->
  submits w Summarization ->
  reg !! "summarizer" = Some h ->
  be_call B h (panel_text w Summarization) (panel_kwargs w Summarization) (world p)
    = (inr (PyList (PyDict d :: rest)), ex) ->
  dict_get d "summary_text" = Some summary ->
  exists replay,
    page (run_script w p) =
      chrome w replay ++ panel_form w Summarization
      ++ [Success "Summary Ready!"; Written summary].
Proof.
  intros (replay & Hc & Hdom) [Hsel Hgo] Hh Hcall Hg. exists replay.
  unfold run_script. rewrite (app_ready w p reg replay Hc Hdom), Hsel.
  simpl in Hgo, Hcall |- *. unfold panel_text in Hcall. simpl in Hcall.
  press_button Hgo Hh. rewrite Hcall. simpl. rewrite Hg. simpl.
  rewrite <- !app_assoc. reflexivity.
Qed.

(** X10. When a handle answers with the empty list: the Text Generation
    and Summarization panels show their success banner and then an
    IndexError; the Sentiment and Grammar panels show the IndexError alone;
    the NER panel shows its banner and an empty table. *)
Theorem empty_answer w p reg t h (ex : ext B) :
  ready p reg ->
  submits w t ->
  reg !! task_key t = Some h ->
  be_call B h (panel_text w t) (panel_kwargs w t) (world p) = (inr (PyList []), ex) ->
  exists replay,
    page (run_script w p) = chrome w replay ++ panel_form w t ++ on_empty_answer t.
Proof.
  intros (replay & Hc & Hdom) [Hsel Hgo] Hh Hcall. exists replay.
  unfold run_script. rewrite (app_ready w p reg replay Hc Hdom), Hsel.
  destruct t; simpl in Hh, Hgo, Hcall |- *; unfold panel_text in Hcall; simpl in Hcall;
    press_button Hgo Hh; rewrite Hcall; simpl; rewrite <- !app_assoc; reflexivity.
Qed.

(** The comprehension stops at the first entity without the field [word]. *)
Lemma entity_rows_missing_word recs good d rest :
  Forall2 entity_record recs good ->
  dict_get d "word" = None ->
  entity_rows (good ++ PyDict d :: rest) = inl (KeyError "'word'").
Proof.
  intros Hgood Hd.
  induction Hgood as [|[[word group] score] ent recs good Hent _ IH]; simpl.
  - unfold entity_row. simpl. rewrite Hd. reflexivity.
  - destruct Hent as (d' & -> & Hw & Hg & Hs).
    unfold entity_row at 1. simpl. rewrite Hw, Hg, Hs. simpl. rewrite IH. reflexivity.
Qed.

(** X11. The table of the NER panel is all or nothing: if one entity of
    the answer is a dict without the field [word], the entities before it
    being well formed, the panel shows its banner and then a KeyError, and
    no table, not even for the entities that were well formed. *)
Theorem ner_table_all_or_nothing w p reg h recs good d rest (ex : ext B) :
  ready p reg ->
  submits w NamedEntityRecognition ->
  reg !! "ner" = Some h ->
  be_call B h (panel_text w NamedEntityRecognition) [] (world p)
    = (inr (PyList (good ++ PyDict d :: rest)), ex) ->
  Forall2 entity_record recs good ->
  dict_get d "word" = None ->
  exists replay,
    page (run_script w p) =
      chrome w replay ++ panel_form w NamedEntityRecognition
      ++ [Success "Entities Identified:"; ExceptionBox (KeyError "'word'")].
Proof.
  intros (replay & Hc & Hdom) [Hsel Hgo] Hh Hcall Hgood Hd. exists replay.
  unfold run_script. rewrite (app_ready w p reg replay Hc Hdom), Hsel.
  simpl in Hgo, Hcall |- *. unfold panel_text in Hcall. simpl in Hcall.
  press_button Hgo Hh. rewrite Hcall. simpl.
  rewrite (entity_rows_missing_word recs good d rest Hgood Hd). simpl.
  rewrite <- !app_assoc. reflexivity.
Qed.

(** ** The lengths that reach the handles *)

(** X12. Whatever the sliders were made to say, the Summarization panel
    calls the summarizer with a maximum between 20 and 200 and a minimum
    between 10 and the maximum; the minimum equals the maximum only when
    both are 20. *)
Theorem summarizer_lengths_in_range w p reg h :
  ready p reg ->
  submits w Summarization ->
  reg !! "summarizer" = Some h ->
  exists max_len min_len,
    invoked (run_script w p) =
      invoked p ++ [Call B h (panel_text w Summarization)
                      [("max_length", max_len); ("min_length", min_len)]]
    /\ 20 <= max_len <= 200
    /\ 10 <= min_len <= max_len
    /\ (min_len = max_len -> max_len = 20).
Proof.
  intros Hr Hs Hh.
  destruct (run_invokes w p reg Summarization h Hr Hs Hh) as (-> & _).
  simpl.
  pose proof (slider_value_within w "Max Summary Length" 20 200 60) as HM.
  set (max_len := slider_value w "Max Summary Length" 20 200 60) in *.
  pose proof (slider_value_within w "Min Summary Length" 10 (max_len - 10) 20) as Hm.
  set (min_len := slider_value w "Min Summary Length" 10 (max_len - 10) 20) in *.
  exists max_len, min_len. split; [reflexivity|].
  unfold slider_bounds in HM, Hm. simpl in HM, Hm. lia.
Qed.

(** X13. Whatever the slider was made to say, the Text Generation panel
    calls its handle with a maximum length between 50 and 500 and asks for
    one sequence. *)
Theorem generation_length_in_range w p reg h :
  ready p reg ->
  submits w TextGeneration ->
  reg !! "text_gen" = Some h ->
  exists max_len,
    invoked (run_script w p) =
      invoked p ++ [Call B h (panel_text w TextGeneration)
                      [("max_length", max_len); ("num_return_sequences", 1)]]
    /\ 50 <= max_len <= 500.
Proof.
  intros Hr Hs Hh.
  destruct (run_invokes w p reg TextGeneration h Hr Hs Hh) as (-> & _).
  simpl.
  pose proof (slider_value_within w "Max Output Length" 50 500 200) as HM.
  exists (slider_value w "Max Output Length" 50 500 200). split; [reflexivity|].
  unfold slider_bounds in HM. simpl in HM. lia.
Qed.

(** ** The confidence that is displayed *)

(** X14. The four decimals that [.4f] prints for a finite float are those
    of an integer number of ten-thousandths nearest to the exact value of
    the float: the exact value when the float is an integer, and otherwise
    at most half a ten-thousandth away from it. *)
Theorem format_float_4f_nearest f s m e :
  Prim2SF f = S754_finite s m e ->
  exists n,
    format_float_4f f =
      sign_prefix s +:+ decimal (n / 10000) +:+ "." +:+ fraction_4 (n mod 10000)
    /\ 0 <= n
    /\ (0 <= e -> n = Z.pos m * 2 ^ e * 10000)
    /\ (e < 0 -> 2 * Z.abs (n * 2 ^ (- e) - Z.pos m * 10000) <= 2 ^ (- e)).
Proof.
  intros Hf. exists (scaled_4 m e). unfold format_float_4f. rewrite Hf.
  split; [reflexivity|]. unfold scaled_4.
  destruct (0 <=? e) eqn:He.
  - apply Z.leb_le in He. split; [|split; [reflexivity|lia]].
    assert (0 < 2 ^ e) by (apply Z.pow_pos_nonneg; lia). nia.
  - apply Z.leb_gt in He.
    assert (0 < 2 ^ (- e)) as Hden by (apply Z.pow_pos_nonneg; lia).
    split; [|split; [lia|intros _; by apply round_half_even_nearest]].
    unfold round_half_even.
    pose proof (Z.div_pos (Z.pos m * 10000) (2 ^ (- e)) ltac:(lia) Hden).
    repeat match goal with |- context [if ?b then _ else _] => destruct b end; lia.
Qed.

(** X15. A score between 0 and 1 is displayed with one digit before the
    point and four after it, as 0.dddd or as 1.0000; the one exception is
    the float negative zero, which is displayed as -0.0000. *)
Theorem format_float_4f_probability f :
  unit_interval (Prim2SF f) ->
  (exists r, 0 <= r < 10000 /\ format_float_4f f = "0." +:+ fraction_4 r)
  \/ format_float_4f f = "1.0000"
  \/ (Prim2SF f = S754_zero true /\ format_float_4f f = "-0.0000").
Proof.
  unfold format_float_4f.
  destruct (Prim2SF f) as [[|]| | |[|] m e]; simpl; try contradiction.
  - intros _. right. right. done.
  - intros _. left. exists 0. split; [lia|reflexivity].
  - unfold scaled_4. destruct (0 <=? e) eqn:He.
    + apply Z.leb_le in He. intros Hle.
      assert (0 < 2 ^ e) by (apply Z.pow_pos_nonneg; lia).
      assert (Z.pos m * 2 ^ e = 1) as -> by nia.
      right. left. reflexivity.
    + apply Z.leb_gt in He. intros Hle.
      assert (0 < 2 ^ (- e)) as Hden by (apply Z.pow_pos_nonneg; lia).
      set (den := 2 ^ (- e)) in *. set (num := Z.pos m * 10000).
      assert (0 <= round_half_even num den <= 10000) as Hn.
      { unfold round_half_even.
        pose proof (Z.div_mod num den ltac:(lia)) as Hdm.
        pose proof (Z.mod_pos_bound num den Hden) as Hr.
        assert (0 <= num / den) by (apply Z.div_pos; lia).
        assert (num / den <= 10000) by (apply Z.div_le_upper_bound; lia).
        assert (num / den = 10000 -> num mod den = 0) by nia.
        repeat match goal with |- context [if ?b then _ else _] => destruct b eqn:? end;
          lia. }
      destruct (Z.eq_dec (round_half_even num den) 10000) as [->|Hne].
      * right. left. reflexivity.
      * left. exists (round_half_even num den). split; [lia|].
        unfold fixed_4. rewrite Z.div_small, Z.mod_small by lia. reflexivity.
Qed.

End Runs.

(* ===================================================================== *)
(** * The further properties on the scripted backends *)
(* ===================================================================== *)

Lemma runs_keep_cache_witness :
  let ws := [press 2 "Analyze"; press 3 "Identify Entities"] in
  cached (run_all ws (visited demo tt)) = cached (visited demo tt)
  /\ constructed (run_all ws (visited demo tt)) = constructed (visited demo tt)
  /\ (length (invoked (run_all ws (visited demo tt)))
      <= length (invoked (visited demo tt)) + length ws)%nat.
Proof.
  intros ws.
  apply (runs_keep_cache (B:=demo) ws (visited demo tt) (Some demo_registry) []).
  vm_compute. reflexivity.
Defined.

Lemma successful_load_binds_keys_witness :
  exists reg,
    load_pipelines (boot (B:=demo) tt) =
      (Ret (Some reg), Proc demo tt (Some (Some reg, [])) five_specs [] [])
    /\ reg !! "text_gen" = Some "text-generation"
    /\ reg !! "summarizer" = Some "summarization"
    /\ reg !! "sentiment" = Some "sentiment-analysis"
    /\ reg !! "ner" = Some "ner"
    /\ reg !! "grammar" = Some "text2text-generation"
    /\ dom reg = five_keys.
Proof.
  apply (successful_load_binds_keys (B:=demo) tt).
  repeat (eapply give_cons; [reflexivity|]). apply give_nil.
Defined.

Lemma failed_load_stops_at_failure_witness :
  load_pipelines (boot (B:=demo_broken) tt) =
    (Ret None,
     Proc demo_broken tt
       (Some (None, [ErrorBox (load_error (Exn "OSError" "model not found"))]))
       [spec_text_gen; spec_summarizer; spec_sentiment; spec_ner] []
       [ErrorBox (load_error (Exn "OSError" "model not found"))]).
Proof.
  apply (failed_load_stops_at_failure (B:=demo_broken) tt 3).
  do 3 (eapply fails_at_next; [reflexivity|]). apply fails_at_first. reflexivity.
Defined.

Lemma failure_shown_on_every_run_witness :
  let q := run_all ([untouched] ++ [press 2 "Analyze"]) (boot (B:=demo_broken) tt) in
  page q = chrome (press 2 "Analyze") [ErrorBox (load_error (Exn "OSError" "model not found"))]
  /\ world q = tt
  /\ constructed q = take 4 five_specs
  /\ invoked q = [].
Proof.
  apply (failure_shown_on_every_run (B:=demo_broken) tt 3).
  do 3 (eapply fails_at_next; [reflexivity|]). apply fails_at_first. reflexivity.
Defined.

Lemma idle_run_shows_one_panel_witness :
  exists t replay,
    selectbox_value untouched "*Select an NLP Task*" task_options = task_option t
    /\ page (run_script untouched (visited demo tt)) = chrome untouched replay ++ panel_form untouched t
    /\ invoked (run_script untouched (visited demo tt)) = invoked (visited demo tt)
    /\ world (run_script untouched (visited demo tt)) = world (visited demo tt).
Proof.
  apply (idle_run_shows_one_panel (B:=demo) untouched (visited demo tt) demo_registry).
  - apply scripted_ready.
  - reflexivity.
Defined.

Lemma text_generation_shows_first_text_witness :
  let w := press 0 "Generate" in
  exists replay,
    page (run_script w (visited demo tt)) =
      chrome w replay ++ panel_form w TextGeneration
      ++ [Success "Done!"; Code (PyStr "She goes to school every day.") "text"].
Proof.
  intros w.
  apply (text_generation_shows_first_text (B:=demo) w (visited demo tt) demo_registry
           "text-generation" [("generated_text", PyStr "She goes to school every day.")]
           [] (PyStr "She goes to school every day.") tt).
  - apply scripted_ready.
  - split; reflexivity.
  - reflexivity.
  - reflexivity.
  - reflexivity.
Defined.

Lemma summarization_shows_first_summary_witness :
  let w := press 1 "Summarize" in
  exists replay,
    page (run_script w (visited demo tt)) =
      chrome w replay ++ panel_form w Summarization
      ++ [Success "Summary Ready!"; Written (PyStr "The Amazon is the largest rainforest.")].
Proof.
  intros w.
  apply (summarization_shows_first_summary (B:=demo) w (visited demo tt) demo_registry
           "summarization" [("summary_text", PyStr "The Amazon is the largest rainforest.")]
           [] (PyStr "The Amazon is the largest rainforest.") tt).
  - apply scripted_ready.
  - split; reflexivity.
  - reflexivity.
  - reflexivity.
  - reflexivity.
Defined.

Lemma empty_answer_witness :
  let w := press 0 "Generate" in
  exists replay,
    page (run_script w (visited demo_empty tt)) =
      chrome w replay ++ panel_form w TextGeneration
      ++ [Success "Done!"; ExceptionBox (IndexError "list index out of range")].
Proof.
  intros w.
  apply (empty_answer (B:=demo_empty) w (visited demo_empty tt) demo_registry
           TextGeneration "text-generation" tt).
  - apply scripted_ready.
  - split; reflexivity.
  - reflexivity.
  - reflexivity.
Defined.

Lemma ner_table_all_or_nothing_witness :
  let w := press 3 "Identify Entities" in
  exists replay,
    page (run_script w (visited demo_gappy tt)) =
      chrome w replay ++ panel_form w NamedEntityRecognition
      ++ [Success "Entities Identified:"; ExceptionBox (KeyError "'word'")].
Proof.
  intros w.
  apply (ner_table_all_or_nothing (B:=demo_gappy) w (visited demo_gappy tt) demo_registry
           "ner" [(PyStr "Elon Musk", PyStr "PER", 0.99%float)]
           [PyDict [("entity_group", PyStr "PER"); ("score", PyFloat 0.99);
                    ("word", PyStr "Elon Musk")]]
           [("entity_group", PyStr "ORG"); ("score", PyFloat 0.95)] [] tt).
  - apply scripted_ready.
  - split; reflexivity.
  - reflexivity.
  - reflexivity.
  - repeat constructor. eexists. split; [reflexivity|repeat split; reflexivity].
  - reflexivity.
Defined.

Lemma summarizer_lengths_in_range_witness :
  let w := sliding "Max Summary Length" 20 (sliding "Min Summary Length" 500 (press 1 "Summarize")) in
  exists max_len min_len,
    invoked (run_script w (visited demo tt)) =
      invoked (visited demo tt)
      ++ [Call demo "summarization" (panel_text w Summarization)
            [("max_length", max_len); ("min_length", min_len)]]
    /\ 20 <= max_len <= 200
    /\ 10 <= min_len <= max_len
    /\ (min_len = max_len -> max_len = 20).
Proof.
  intros w.
  apply (summarizer_lengths_in_range (B:=demo) w (visited demo tt) demo_registry).
  - apply scripted_ready.
  - split; reflexivity.
  - reflexivity.
Defined.

Lemma generation_length_in_range_witness :
  let w := sliding "Max Output Length" 9000 (press 0 "Generate") in
  exists max_len,
    invoked (run_script w (visited demo tt)) =
      invoked (visited demo tt)
      ++ [Call demo "text-generation" (panel_text w TextGeneration)
            [("max_length", max_len); ("num_return_sequences", 1)]]
    /\ 50 <= max_len <= 500.
Proof.
  intros w.
  apply (generation_length_in_range (B:=demo) w (visited demo tt) demo_registry).
  - apply scripted_ready.
  - split; reflexivity.
  - reflexivity.
Defined.

Lemma format_float_4f_nearest_witness :
  exists n,
    format_float_4f 0.9998 =
      sign_prefix false +:+ decimal (n / 10000) +:+ "." +:+ fraction_4 (n mod 10000)
    /\ 0 <= n
    /\ (0 <= -53 -> n = 9005397814890044 * 2 ^ (-53) * 10000)
    /\ (-53 < 0 -> 2 * Z.abs (n * 2 ^ (- -53) - 9005397814890044 * 10000) <= 2 ^ (- -53)).
Proof.
  apply (format_float_4f_nearest 0.9998 false 9005397814890044 (-53)).
  vm_compute. reflexivity.
Defined.

Lemma format_float_4f_probability_witness :
  (exists r, 0 <= r < 10000 /\ format_float_4f 0.9998 = "0." +:+ fraction_4 r)
  \/ format_float_4f 0.9998 = "1.0000"
  \/ (Prim2SF 0.9998 = S754_zero true /\ format_float_4f 0.9998 = "-0.0000").
Proof.
  apply (format_float_4f_probability 0.9998).
  vm_compute. discriminate.
Defined.
